(** * The pull-request triage agent

    A shallow embedding of [agents/pr_triage_agent/agent.py]: the values the
    agent exchanges with the hosting platform (decoded JSON), the Python
    operations the module applies to them, the three tools
    ([get_pull_request_details], [add_label_to_pr], [add_comment_to_pr]),
    the start-up configuration ([get_repo_config], [CONTRIBUTING_MD],
    [PULL_REQUEST_TEMPLATE_MD], the instruction of [root_agent]), and the
    triage decision engine that the module leaves to the language model. *)

From Stdlib Require Import String Ascii List ZArith QArith Bool Lia.
From Stdlib Require Import DecimalString.
Import ListNotations.

Local Open Scope Z_scope.
Local Open Scope list_scope.
Local Open Scope string_scope.

(** ** Python strings *)

Module PyStr.

(** [s.startswith(p)]. *)
Fixpoint startswith (p s : string) : bool :=
  match p with
  | EmptyString => true
  | String a p' =>
      match s with
      | EmptyString => false
      | String b s' => Ascii.eqb a b && startswith p' s'
      end
  end.

(** [sub in s] on two strings. *)
Fixpoint contains (sub s : string) : bool :=
  startswith sub s ||
  match s with
  | EmptyString => false
  | String _ s' => contains sub s'
  end.

(** [s[:n]] for a non-negative bound [n]. *)
Fixpoint take (n : nat) (s : string) : string :=
  match n, s with
  | S n', String c s' => String c (take n' s')
  | _, _ => EmptyString
  end.

(** The scan of [s.replace(old, new)] for a non-empty [old]: [skip] counts
    the characters of a match that are still to be passed over. *)
Fixpoint replace_scan (old new : string) (skip : nat) (s : string) : string :=
  match s with
  | EmptyString => EmptyString
  | String c s' =>
      match skip with
      | S k => replace_scan old new k s'
      | O =>
          if startswith old s
          then new ++ replace_scan old new (String.length old - 1) s'
          else String c (replace_scan old new O s')
      end
  end.

(** With an empty [old], Python puts [new] before every character and at
    the end. *)
Fixpoint intersperse (new s : string) : string :=
  match s with
  | EmptyString => new
  | String c s' => new ++ String c (intersperse new s')
  end.

(** [s.replace(old, new)]. *)
Definition replace (old new s : string) : string :=
  match old with
  | EmptyString => intersperse new s
  | String _ _ => replace_scan old new O s
  end.

(** [c in s] for a single character. *)
Fixpoint has_char (c : ascii) (s : string) : bool :=
  match s with
  | EmptyString => false
  | String a s' => Ascii.eqb a c || has_char c s'
  end.

(** [str(n)] for an [int]. *)
Definition of_int (n : Z) : string := NilZero.string_of_int (Z.to_int n).

End PyStr.

(** ** Decoded JSON values *)

(** What [json.load] and [response.json()] hand to the module.  A [dict] is
    kept as an association list in insertion order with distinct keys; a
    JSON real is kept as a rational. *)
#[local] Set Warnings "-register-all".
Inductive value : Type :=
  | VNone
  | VBool (b : bool)
  | VInt (n : Z)
  | VFloat (q : Q)
  | VStr (s : string)
  | VList (items : list value)
  | VDict (entries : list (string * value)).

(** ** Exceptions and results *)

Inductive exn_class : Type :=
  | RequestException      (* requests.exceptions.RequestException and subclasses *)
  | FileNotFoundError
  | KeyError
  | AttributeError
  | TypeError
  | OtherException (name : string).

Record exn : Type := Exn { exn_class_of : exn_class; exn_str : string }.

Inductive outcome (A : Type) : Type :=
  | Return (a : A)
  | Raise (e : exn).
Arguments Return {A} a.
Arguments Raise {A} e.

Definition obind {A B} (o : outcome A) (k : A -> outcome B) : outcome B :=
  match o with
  | Return a => k a
  | Raise e => Raise e
  end.

Declare Scope outcome_scope.
Delimit Scope outcome_scope with outcome.
Notation "'let?' x ':=' o 'in' k" := (obind o (fun x => k))
  (at level 10, x name, o at level 100, k at level 200) : outcome_scope.

Definition is_request_exception (e : exn) : bool :=
  match exn_class_of e with RequestException => true | _ => false end.

Definition is_file_not_found (e : exn) : bool :=
  match exn_class_of e with FileNotFoundError => true | _ => false end.

Definition is_key_error (e : exn) : bool :=
  match exn_class_of e with KeyError => true | _ => false end.

(** ** Python operations on values *)

Module Py.

(** Truth value, as tested by [if x:] and [not x]. *)
Definition truthy (v : value) : bool :=
  match v with
  | VNone => false
  | VBool b => b
  | VInt n => negb (n =? 0)%Z
  | VFloat q => negb (Qeq_bool q 0%Q)
  | VStr s => negb (s =? EmptyString)%string
  | VList items => match items with [] => false | _ :: _ => true end
  | VDict entries => match entries with [] => false | _ :: _ => true end
  end.

Fixpoint lookup (key : string) (entries : list (string * value)) : option value :=
  match entries with
  | [] => None
  | (k, v) :: rest => if (k =? key)%string then Some v else lookup key rest
  end.

(** [d[key] = v] on a dict: an existing key keeps its position. *)
Fixpoint store (key : string) (v : value) (entries : list (string * value))
  : list (string * value) :=
  match entries with
  | [] => [(key, v)]
  | (k, w) :: rest =>
      if (k =? key)%string then (k, v) :: rest else (k, w) :: store key v rest
  end.

Definition type_error (msg : string) : exn := Exn TypeError msg.
Definition attribute_error (msg : string) : exn := Exn AttributeError msg.
Definition key_error (key : string) : exn := Exn KeyError ("'" ++ key ++ "'").

(** [obj.get(key, default)]: only a dict has the method. *)
Definition get (obj : value) (key : string) (default : value) : outcome value :=
  match obj with
  | VDict entries =>
      Return (match lookup key entries with Some v => v | None => default end)
  | _ => Raise (attribute_error "object has no attribute 'get'")
  end.

(** [obj[key]] with a string key. *)
Definition getitem (obj : value) (key : string) : outcome value :=
  match obj with
  | VDict entries =>
      match lookup key entries with
      | Some v => Return v
      | None => Raise (key_error key)
      end
  | _ => Raise (type_error "indices must be integers or object is not subscriptable")
  end.

(** [obj[key] = v] with a string key. *)
Definition setitem (obj : value) (key : string) (v : value) : outcome value :=
  match obj with
  | VDict entries => Return (VDict (store key v entries))
  | _ => Raise (type_error "object does not support item assignment")
  end.

(** [key in obj] with a string on the left. *)
Definition str_in (key : string) (obj : value) : outcome bool :=
  match obj with
  | VDict entries =>
      Return (match lookup key entries with Some _ => true | None => false end)
  | VList items =>
      Return (existsb (fun x => match x with
                                | VStr s => (s =? key)%string
                                | _ => false
                                end) items)
  | VStr s => Return (PyStr.contains key s)
  | _ => Raise (type_error "argument is not iterable")
  end.

Fixpoint chars (s : string) : list value :=
  match s with
  | EmptyString => []
  | String c s' => VStr (String c EmptyString) :: chars s'
  end.

(** The elements a [for] clause draws from [obj]. *)
Definition iter (obj : value) : outcome (list value) :=
  match obj with
  | VList items => Return items
  | VDict entries => Return (map (fun kv => VStr (fst kv)) entries)
  | VStr s => Return (chars s)
  | _ => Raise (type_error "object is not iterable")
  end.

(** [obj.startswith(prefix)]: only a string has the method. *)
Definition startswith (obj : value) (prefix : string) : outcome bool :=
  match obj with
  | VStr s => Return (PyStr.startswith prefix s)
  | _ => Raise (attribute_error "object has no attribute 'startswith'")
  end.

End Py.

(** ** The world the module acts on *)

(** A request sent to the hosting platform. *)
Inductive Request : Type :=
  | GraphQL (query : string) (variables : value)
  | GetDiff (url : string)
  | Post (url : string) (payload : value).

(** Standard output, one entry per [print], and the requests sent so far,
    oldest first. *)
Record World : Type := mkWorld {
  stdout : list string;
  requests : list Request
}.

(** A computation may print, send requests, return or raise.  What was
    printed or sent before an exception stays in the world. *)
Definition M (A : Type) : Type := World -> outcome A * World.

Definition ret {A} (a : A) : M A := fun w => (Return a, w).

Definition bind {A B} (m : M A) (k : A -> M B) : M B :=
  fun w =>
    match m w with
    | (Return a, w') => k a w'
    | (Raise e, w') => (Raise e, w')
    end.

Definition lift {A} (o : outcome A) : M A := fun w => (o, w).

(** [try: body except <classes> as e: handler]. *)
Definition try_except {A} (body : M A) (caught : exn -> bool)
    (handler : exn -> M A) : M A :=
  fun w =>
    match body w with
    | (Return a, w') => (Return a, w')
    | (Raise e, w') => if caught e then handler e w' else (Raise e, w')
    end.

Definition print (line : string) : M unit :=
  fun w => (Return tt, mkWorld (stdout w ++ [line]) (requests w)).

Declare Scope py_scope.
Delimit Scope py_scope with py.
Notation "x <- m ;; k" := (bind m (fun x => k))
  (at level 61, m at next level, right associativity) : py_scope.
Notation "m ;; k" := (bind m (fun _ => k))
  (at level 61, right associativity) : py_scope.
Local Open Scope py_scope.

(** ** What the module imports *)

(** [pr_triage_agent.settings]. *)
Class Settings : Type := {
  GITHUB_BASE_URL : string;
  IS_INTERACTIVE : bool;
  OWNER : string;
  REPO : string
}.

(** [pr_triage_agent.utils] is imported, not defined, by the module.  Its
    pure helper [error_response] and its file reader [read_file] are taken
    as they come; of the three network helpers only the reply of the
    platform is taken as given, as a function of the requests sent before. *)
Class Utils : Type := {
  error_response : string -> value;
  read_file : string -> M string;
  graphql_reply : list Request -> string -> value -> outcome value;
  diff_reply : list Request -> string -> outcome string;
  post_reply : list Request -> string -> value -> outcome value
}.

(** The interpreter and its libraries: [str] on a decoded value, [open] and
    reading a text file, [json.load] on the text read, [os.environ], the
    directory of the module and [pathlib]'s [/]. *)
Class Runtime : Type := {
  str_value : value -> string;
  open_text : string -> outcome string;
  json_loads : string -> outcome value;
  environ : list (string * string);
  module_dir : string;
  joinpath : string -> string -> string
}.

Section Helpers.
Context `{Utils}.

(** Modelled from the spec: [run_graphql_query] of [pr_triage_agent.utils],
    the snapshot fetch of section 6, one read-only query against the
    hosting platform; its failures are reported upward unmodified. *)
Definition run_graphql_query (query : string) (variables : value) : M value :=
  fun w =>
    (graphql_reply (requests w) query variables,
     mkWorld (stdout w) (requests w ++ [GraphQL query variables])).

(** Modelled from the spec: [get_diff] of [pr_triage_agent.utils], the
    diff part of the snapshot fetch of section 6, one read of the given
    url. *)
Definition get_diff (url : string) : M string :=
  fun w =>
    (diff_reply (requests w) url,
     mkWorld (stdout w) (requests w ++ [GetDiff url])).

(** Modelled from the spec: [post_request] of [pr_triage_agent.utils], the
    transport of the action executor of section 6, one request to an
    issues/labels or issues/comments endpoint. *)
Definition post_request (url : string) (payload : value) : M value :=
  fun w =>
    (post_reply (requests w) url payload,
     mkWorld (stdout w) (requests w ++ [Post url payload])).

End Helpers.

(** ** The module *)

Definition dq : string := String (ascii_of_nat 34) EmptyString.

(** The instruction text, lines 32-131 of the module. *)
Definition BASE_PROMPT_TEMPLATE : string :=
  "# 1. Identity
You are a Pull Request (PR) triaging bot for the GitHub {REPO} repo with the owner {OWNER}.

# 2. Responsibilities
Your core responsibility includes:
- Add a label to the pull request.
- Check if the pull request is following the contribution guidelines.
- Add a comment to the pull request if it's not following the guidelines.

**IMPORTANT: {APPROVAL_INSTRUCTION}**

# 3. Guidelines & Rules
Here are the rules for labeling:
{repo_specific_guidelines}
- If you can't find an appropriate labels for the PR, follow the previous instruction that starts with "
  ++ dq ++ "IMPORTANT:"
  ++ dq ++ ".

Here is the contribution guidelines:
<details>
<summary>CONTRIBUTING.md</summary>
{CONTRIBUTING_MD}
</details>
<details>
<summary>pull_request_template.md</summary>
{PULL_REQUEST_TEMPLATE_MD}
</details>

Here are the guidelines for checking if the PR is following the guidelines:
- The PR body (`pullRequest.body`) should be filled out according to
  `pull_request_template.md`. Ensure Description and Category are completed.
- The "
  ++ dq ++ "statusCheckRollup"
  ++ dq ++ " in the pull request details may help you to
  identify if the PR is following some of the guidelines (e.g. CLA
  compliance).

Here are the guidelines for the comment:
- **Be Polite and Helpful:** Start with a friendly tone.
- **Be Specific:** Clearly list only the sections from the contribution
  guidelines that are still missing.
- **Address the Author:** Mention the PR author by their username (e.g.,
  `@username`).
- **Provide Context:** Explain *why* the information or action is needed.
- **Identify yourself:** Include a bolded note (e.g. "
  ++ dq ++ "Response from ADK
  Triaging Agent"
  ++ dq ++ ") in your comment to indicate this comment was added by an
  ADK Answering Agent.
- **Do not be repetitive:**
    - If you have already commented on this PR about a specific issue, do not
      comment about the *same* issue again if it has not been resolved.
    - If a previous issue you commented on has been resolved, but you detect a
      *new* issue with the PR, you SHOULD comment again to point out the new
      issue.
    - If you have already commented that the PR looks good, do not comment
      again unless a new issue is introduced in a later commit.

**Example Comment for a PR:**
> **Response from ADK Triaging Agent**
>
> Hello @[pr-author-username], thank you for creating this PR!
>
> This PR is a bug fix, could you please associate the github issue with this
> PR? If there is no existing issue, could you please create one?
>
> In addition, could you please provide logs or screenshot after the fix is
> applied?
>
> This information will help reviewers to review your PR more efficiently.
> Thanks!

# 4. Steps
When you are given PR details, here are the steps you should take:
- Analyze the provided PR details including title, body, diff, commits, and
  comments.
- Skip the PR (i.e. do not label or comment) if any of the following is true:
    - its state is 'CLOSED'
    - it is already labelled with one of the ALLOWED_LABELS: {ALLOWED_LABELS}.
- Check if any comment in `pullRequest.comments.nodes` is from an author
  where `comment.author.login` is different from `pullRequest.author.login`
  AND where `comment.body` does NOT contain
  "
  ++ dq ++ "**Response from ADK Triaging Agent**"
  ++ dq ++ ".
  If such a comment exists, a human reviewer is involved, and you should skip
  commenting.
- Check if the PR is following all contribution guidelines.
  - If one or more guidelines are NOT being followed:
    - If a human reviewer is involved, do not comment.
    - Otherwise, if you have not already commented on the same unresolved
      issues, call `add_comment_to_pr` with a comment that specifies what is
      missing and points to the relevant guideline(s).
  - If ALL guidelines ARE being followed:
    - Determine the single most appropriate label from ALLOWED_LABELS:
      {ALLOWED_LABELS} and call `add_label_to_pr` to add it.
    - If no human reviewer is involved and you have NOT commented on this PR
      before, call `add_comment_to_pr` with a message like: "
  ++ dq ++ "Hello
      @[pr-author-username], thank you for your contribution! This PR appears
      to follow our contribution guidelines. I have added the appropriate
      label(s); please wait for reviewer feedback."
  ++ dq ++ "

# 5. Output
Present the following in an easy to read format highlighting PR number and your label.
- The PR summary in a few sentence
- The label you recommended or added with the justification
- The comment you recommended or added to the PR with the justification
".

(** [os.environ[key]]. *)
Fixpoint environ_lookup (key : string) (env : list (string * string)) : option string :=
  match env with
  | [] => None
  | (k, v) :: rest => if (k =? key)%string then Some v else environ_lookup key rest
  end.

Section Configuration.
Context `{Utils} `{Runtime}.

Definition environ_getitem (key : string) : outcome string :=
  match environ_lookup key environ with
  | Some v => Return v
  | None => Raise (Py.key_error key)
  end.

(** The body of the [try] of [get_repo_config], lines 137-147. *)
Definition load_named_config (repo_name : string) : M (string * value) :=
  let prompt_path := joinpath (joinpath module_dir "prompts") (repo_name ++ ".txt") in
  let config_path := joinpath (joinpath module_dir "configs") (repo_name ++ ".json") in
  repo_specific_guidelines <- read_file prompt_path ;;
  f <- lift (open_text config_path) ;;
  config <- lift (json_loads f) ;;
  labels <- lift (Py.get config "allowed_labels" (VList [])) ;;
  print ("Loaded config for repo: " ++ repo_name) ;;
  let prompt :=
    PyStr.replace "{repo_specific_guidelines}" repo_specific_guidelines
      BASE_PROMPT_TEMPLATE in
  ret (prompt, labels).

(** The handler of [get_repo_config], lines 149-161. *)
Definition load_ucp_config (repo_name : string) : M (string * value) :=
  print ("Error: No prompt or config found for repo: " ++ repo_name) ;;
  print "Falling back to ucp config." ;;
  let prompt_path := joinpath (joinpath module_dir "prompts") "ucp.txt" in
  let config_path := joinpath (joinpath module_dir "configs") "ucp.json" in
  repo_specific_guidelines <- read_file prompt_path ;;
  f <- lift (open_text config_path) ;;
  config <- lift (json_loads f) ;;
  labels <- lift (Py.get config "allowed_labels" (VList [])) ;;
  let prompt :=
    PyStr.replace "{repo_specific_guidelines}" repo_specific_guidelines
      BASE_PROMPT_TEMPLATE in
  ret (prompt, labels).

(** [get_repo_config], lines 134-161. *)
Definition get_repo_config (repo_name : string) : M (string * value) :=
  try_except
    (load_named_config repo_name)
    is_file_not_found
    (fun _ => load_ucp_config repo_name).

(** The two start-up blocks of lines 168-184 differ in the environment
    variable and in the text used when the file cannot be read. *)
Definition load_markdown (variable not_found : string) : M string :=
  try_except
    (path <- lift (environ_getitem variable) ;;
     text <- read_file path ;;
     ret (PyStr.replace "}" "]" (PyStr.replace "{" "[" text)))
    (fun e => is_file_not_found e || is_key_error e)
    (fun _ => ret not_found).

Definition CONTRIBUTING_MD : M string :=
  load_markdown "CONTRIBUTING_MD_PATH" "CONTRIBUTING.md not found.".

Definition PULL_REQUEST_TEMPLATE_MD : M string :=
  load_markdown "PULL_REQUEST_TEMPLATE_MD_PATH" "pull_request_template.md not found.".

End Configuration.

(** The names bound at line 164 from [get_repo_config(REPO)]. *)
Class Globals : Type := {
  PROMPT_TEMPLATE : string;
  ALLOWED_LABELS : value
}.

Section Tools.
Context `{Settings} `{Utils} `{Runtime} `{Globals}.

(** Lines 187-191. *)
Definition approval_instruction : string :=
  if IS_INTERACTIVE
  then "Only label or comment when the user approves the labeling or commenting!"
  else "Do not ask for user approval for labeling or commenting!".

Definition PR_QUERY : string :=
  "
    query($owner: String!, $repo: String!, $prNumber: Int!) {
      repository(owner: $owner, name: $repo) {
        pullRequest(number: $prNumber) {
          id
          number
          title
          body
          state
          author {
            login
          }
          labels(last: 10) {
            nodes {
              name
            }
          }
          files(last: 50) {
            nodes {
              path
            }
          }
          comments(last: 50) {
            nodes {
              id
              body
              createdAt
              author {
                login
              }
            }
          }
          commits(last: 50) {
            nodes {
              commit {
                url
                message
              }
            }
          }
          statusCheckRollup {
            state
            contexts(last: 20) {
              nodes {
                ... on StatusContext {
                  context
                  state
                  targetUrl
                }
                ... on CheckRun {
                  name
                  status
                  conclusion
                  detailsUrl
                }
              }
            }
          }
        }
      }
    }
  ".

Definition MAIN_MERGE_PREFIX : string := "Merge branch 'main' into".

(** The bound of the slice [[:10000]]. *)
Definition DIFF_LIMIT : nat := Z.to_nat 10000.

(** The comprehension of lines 281-287: the nodes are visited in order and
    the first one whose message cannot be read raises. *)
Fixpoint filter_commits (nodes : list value) : outcome (list value) :=
  match nodes with
  | [] => Return []
  | commit_node :: rest =>
      (let? commit := Py.getitem commit_node "commit" in
       let? message := Py.getitem commit "message" in
       let? merged := Py.startswith message MAIN_MERGE_PREFIX in
       let? kept := filter_commits rest in
       Return (if negb merged then commit_node :: kept else kept))%outcome
  end.

(** [get_pull_request_details], lines 194-295.  The assignment
    [pr["commits"]["nodes"] = filtered_commits] changes the dict that [pr]
    holds under "commits"; here that dict is rebuilt and stored back. *)
Definition get_pull_request_details (pr_number : Z) : M value :=
  print ("Fetching details for PR #" ++ PyStr.of_int pr_number
         ++ " from " ++ OWNER ++ "/" ++ REPO) ;;
  let variables :=
    VDict [("owner", VStr OWNER); ("repo", VStr REPO); ("prNumber", VInt pr_number)] in
  let url :=
    GITHUB_BASE_URL ++ "/repos/" ++ OWNER ++ "/" ++ REPO ++ "/pulls/"
    ++ PyStr.of_int pr_number in
  try_except
    (response <- run_graphql_query PR_QUERY variables ;;
     has_errors <- lift (Py.str_in "errors" response) ;;
     if has_errors then
       errors <- lift (Py.getitem response "errors") ;;
       ret (error_response (str_value errors))
     else
       data <- lift (Py.get response "data" (VDict [])) ;;
       repository <- lift (Py.get data "repository" (VDict [])) ;;
       pr <- lift (Py.get repository "pullRequest" VNone) ;;
       if negb (Py.truthy pr) then
         ret (error_response
                ("Pull Request #" ++ PyStr.of_int pr_number ++ " not found."))
       else
         commits <- lift (Py.get pr "commits" (VDict [])) ;;
         original_commits <- lift (Py.get commits "nodes" (VDict [])) ;;
         pr <- (if Py.truthy original_commits then
                  nodes <- lift (Py.iter original_commits) ;;
                  filtered_commits <- lift (filter_commits nodes) ;;
                  held <- lift (Py.getitem pr "commits") ;;
                  held <- lift (Py.setitem held "nodes" (VList filtered_commits)) ;;
                  lift (Py.setitem pr "commits" held)
                else ret pr) ;;
         diff <- get_diff url ;;
         pr <- lift (Py.setitem pr "diff" (VStr (PyStr.take DIFF_LIMIT diff))) ;;
         ret (VDict [("status", VStr "success"); ("pull_request", pr)]))
    is_request_exception
    (fun e => ret (error_response (exn_str e))).

(** [add_label_to_pr], lines 298-328.  The final [return] follows the
    [try] statement in the source; it cannot raise, so it is written here
    as the end of the guarded body. *)
Definition add_label_to_pr (pr_number : Z) (label : string) : M value :=
  print ("Attempting to add label '" ++ label ++ "' to PR #"
         ++ PyStr.of_int pr_number) ;;
  allowed <- lift (Py.str_in label ALLOWED_LABELS) ;;
  if negb allowed then
    ret (error_response
           ("Error: Label '" ++ label ++ "' is not an allowed label. Will not apply."))
  else
    let label_url :=
      GITHUB_BASE_URL ++ "/repos/" ++ OWNER ++ "/" ++ REPO ++ "/issues/"
      ++ PyStr.of_int pr_number ++ "/labels" in
    let label_payload := VList [VStr label] in
    try_except
      (response <- post_request label_url label_payload ;;
       ret (VDict [("status", VStr "success");
                   ("applied_label", VStr label);
                   ("response", response)]))
      is_request_exception
      (fun e => ret (error_response ("Error: " ++ exn_str e))).

(** [add_comment_to_pr], lines 331-354, with the final [return] placed as
    in [add_label_to_pr]. *)
Definition add_comment_to_pr (pr_number : Z) (comment : string) : M value :=
  print ("Attempting to add comment '" ++ comment ++ "' to issue #"
         ++ PyStr.of_int pr_number) ;;
  let url :=
    GITHUB_BASE_URL ++ "/repos/" ++ OWNER ++ "/" ++ REPO ++ "/issues/"
    ++ PyStr.of_int pr_number ++ "/comments" in
  let payload := VDict [("body", VStr comment)] in
  try_except
    (post_request url payload ;;
     ret (VDict [("status", VStr "success"); ("added_comment", VStr comment)]))
    is_request_exception
    (fun e => ret (error_response ("Error: " ++ exn_str e))).

End Tools.

(** ** The snapshot of a pull request *)

(** A node of [pullRequest.comments.nodes]. *)
Record Comment : Type := mkComment {
  comment_id : string;
  comment_body : string;
  comment_createdAt : string;
  comment_author_login : string
}.

(** The pull request as the query of [get_pull_request_details] selects it. *)
Record PullRequest : Type := mkPullRequest {
  pr_number : Z;
  pr_title : string;
  pr_body : string;
  pr_state : string;
  pr_author_login : string;
  pr_labels : list string;
  pr_files : list string;
  pr_comments : list Comment;
  pr_commit_messages : list string;
  pr_status_checks : value;
  pr_diff : string
}.

(** The marker of the comments of the bot, line 108. *)
Definition BOT_MARKER : string := "**Response from ADK Triaging Agent**".

(** ** The duplicate suppressor *)

Module DuplicateSuppressor.
Section Suppressor.

(** The guideline sections a bot comment refers to, and whether it is a
    "looks good" acknowledgment (step 2 and step 5 of the policy). *)
Variable sections_raised : Comment -> list string.
Variable looks_good : Comment -> bool.

Definition mentions (sections : list string) (s : string) : bool :=
  existsb (String.eqb s) sections.

Definition subset (xs ys : list string) : bool :=
  forallb (mentions ys) xs.

(** Comments are in chronological order: the most recent one is last. *)
Definition most_recent (comments : list Comment) : option Comment :=
  last (map Some comments) None.

(** Modelled from the spec: [should_comment] of section 4.3, which the
    module states only in prose (lines 75-82 of the instruction text).
    Step 1: no prior bot comment, allow.  Steps 2-4: with sections still
    missing, suppress when all of them were raised by the most recent bot
    comment, allow when one was not.  Step 5: with nothing missing, suppress
    after a "looks good" comment; the policy leaves the case of nothing
    missing after another bot comment open, and the instruction text
    (line 120) comments only when the bot has not commented before. *)
Definition should_comment (proposed_text : string)
    (prior_bot_comments : list Comment)
    (current_missing_sections : list string) : bool :=
  match most_recent prior_bot_comments with
  | None => true
  | Some recent =>
      match current_missing_sections with
      | [] => if looks_good recent then false else false
      | _ :: _ => negb (subset current_missing_sections (sections_raised recent))
      end
  end.

End Suppressor.
End DuplicateSuppressor.

(** ** The triage decision engine *)

Module Engine.

(** Modelled from the spec: the Decision of section 3, the terminal output
    of one engine invocation.  The module has no such value: the language
    model the agent is built on calls the tools itself. *)
Inductive Decision : Type :=
  | Skip (reason : string)
  | CommentOnly (text : string)
  | Label (name : string)
  | LabelAndComment (name : string) (text : string).

Definition label_of (d : Decision) : option string :=
  match d with
  | Label name | LabelAndComment name _ => Some name
  | Skip _ | CommentOnly _ => None
  end.

Definition comment_of (d : Decision) : option string :=
  match d with
  | CommentOnly text | LabelAndComment _ text => Some text
  | Skip _ | Label _ => None
  end.

(** Modelled from the spec: the configuration section 9 asks to pass into
    the engine, and the collaborators sections 4.2 to 4.4 leave abstract:
    the names of the label taxonomy, the sections the GuidelineEvaluator
    judges missing (an unknown one counts as missing, section 7), the
    choice of the LabelSelector, the sections a bot comment refers to and
    whether it is a "looks good" acknowledgment (section 4.3), and the two
    comment texts. *)
Record Setup : Type := mkSetup {
  taxonomy : list string;
  evaluate : PullRequest -> list string;
  select : PullRequest -> option string;
  sections_raised : Comment -> list string;
  looks_good : Comment -> bool;
  describe : PullRequest -> list string -> string;
  acknowledge : PullRequest -> string
}.

(** Modelled from the spec: the test of section 4.1 on one comment, which
    counts as human involvement when its author differs from the author of
    the item and its body does not contain the bot marker. *)
Definition from_human (author : string) (c : Comment) : bool :=
  negb (comment_author_login c =? author)%string
  && negb (PyStr.contains BOT_MARKER (comment_body c)).

(** Modelled from the spec: the scan of section 4.1 over the comments in
    order, true at the first comment that counts, false when none does. *)
Fixpoint scan (author : string) (comments : list Comment) : bool :=
  match comments with
  | [] => false
  | c :: rest => if from_human author c then true else scan author rest
  end.

(** Modelled from the spec: [involved(item)] of the HumanInvolvementDetector,
    section 4.1. *)
Definition involved (item : PullRequest) : bool :=
  scan (pr_author_login item) (pr_comments item).

(** Modelled from the spec: the comments of the bot, told by the marker in
    their body (section 3), in chronological order. *)
Definition prior_bot_comments (item : PullRequest) : list Comment :=
  filter (fun c => PyStr.contains BOT_MARKER (comment_body c)) (pr_comments item).

Section Machine.
Variable cfg : Setup.

Definition in_taxonomy (name : string) : bool :=
  existsb (String.eqb name) (taxonomy cfg).

(** Modelled from the spec: an item that carries a label of the taxonomy
    (section 4.5, AlreadyLabeled). *)
Definition already_labeled (item : PullRequest) : bool :=
  existsb in_taxonomy (pr_labels item).

(** Modelled from the spec: a closed item (section 4.5, Closed); the
    snapshot holds the state as the platform names it. *)
Definition closed (item : PullRequest) : bool :=
  (pr_state item =? "CLOSED")%string.

(** Modelled from the spec: the states of section 4.5. *)
Inductive stage : Type :=
  | Start
  | Filtered
  | AlreadyLabeled
  | Closed
  | HumanCheck
  | Evaluate
  | AllSatisfied
  | SomeMissing
  | SelectLabel
  | Terminal (d : Decision).

(** Modelled from the spec: one transition of the state machine of section
    4.5.  A selected label outside the taxonomy is a precondition violation,
    on which the engine fails closed (section 7). *)
Definition step (item : PullRequest) (s : stage) : stage :=
  match s with
  | Start => Filtered
  | Filtered =>
      if already_labeled item then AlreadyLabeled
      else if closed item then Closed
      else HumanCheck
  | AlreadyLabeled => Terminal (Skip "already labeled")
  | Closed => Terminal (Skip "closed")
  | HumanCheck =>
      if involved item then Terminal (Skip "human involved") else Evaluate
  | Evaluate =>
      match evaluate cfg item with
      | [] => AllSatisfied
      | _ :: _ => SomeMissing
      end
  | AllSatisfied => SelectLabel
  | SelectLabel =>
      match select cfg item with
      | None => Terminal (Skip "no confident category")
      | Some name =>
          if in_taxonomy name then
            if DuplicateSuppressor.should_comment
                 (sections_raised cfg) (looks_good cfg)
                 (acknowledge cfg item) (prior_bot_comments item) []
            then Terminal (LabelAndComment name (acknowledge cfg item))
            else Terminal (Label name)
          else Terminal (Skip "label outside the taxonomy")
      end
  | SomeMissing =>
      let missing := evaluate cfg item in
      let text := describe cfg item missing in
      if DuplicateSuppressor.should_comment
           (sections_raised cfg) (looks_good cfg)
           text (prior_bot_comments item) missing
      then Terminal (CommentOnly text)
      else Terminal (Skip "already raised")
  | Terminal d => Terminal d
  end.

Fixpoint run (item : PullRequest) (steps : nat) (s : stage) : stage :=
  match steps with
  | O => s
  | S n => run item n (step item s)
  end.

(** Modelled from the spec: the TriageDecisionEngine of section 4.5, one
    decision per invocation.  The longest path from Start has six
    transitions; a run that had not ended by then would be an internal
    inconsistency, on which the engine fails closed (section 7). *)
Definition decide (item : PullRequest) : Decision :=
  match run item 6 Start with
  | Terminal d => d
  | _ => Skip "internal inconsistency"
  end.

End Machine.

End Engine.

(** ** Reading results and snapshots *)

(** The "status" entry of a result. *)
Definition status_of (result : value) : option value :=
  match result with
  | VDict entries => Py.lookup "status" entries
  | _ => None
  end.

(** The "pull_request" entry of a result. *)
Definition pull_request_of (result : value) : option value :=
  match result with
  | VDict entries => Py.lookup "pull_request" entries
  | _ => None
  end.

Definition field (key : string) (obj : value) : option value :=
  match obj with
  | VDict entries => Py.lookup key entries
  | _ => None
  end.

(** The list under [commits.nodes] of a pull request, empty when there is
    none. *)
Definition commit_nodes (pr : value) : list value :=
  match field "commits" pr with
  | Some commits =>
      match field "nodes" commits with
      | Some (VList nodes) => nodes
      | _ => []
      end
  | None => []
  end.

(** [commit_node["commit"]["message"]] when it is there and is a string. *)
Definition commit_message (commit_node : value) : option string :=
  match field "commit" commit_node with
  | Some commit =>
      match field "message" commit with
      | Some (VStr message) => Some message
      | _ => None
      end
  | None => None
  end.

Definition is_main_merge (commit_node : value) : bool :=
  match commit_message commit_node with
  | Some message => PyStr.startswith MAIN_MERGE_PREFIX message
  | None => false
  end.

(** Every opening brace turned into an opening bracket and every closing
    brace into a closing bracket. *)
Definition bracket (c : ascii) : ascii :=
  if Ascii.eqb c "{" then "["%char
  else if Ascii.eqb c "}" then "]"%char
  else c.

Fixpoint map_chars (f : ascii -> ascii) (s : string) : string :=
  match s with
  | EmptyString => EmptyString
  | String c s' => String (f c) (map_chars f s')
  end.

Definition brackets (s : string) : string := map_chars bracket s.

Definition no_braces (s : string) : Prop :=
  PyStr.has_char "{" s = false /\ PyStr.has_char "}" s = false.

(** ** The stages of [get_pull_request_details] *)

Section Stages.
Context `{Settings} `{Utils} `{Runtime}.

(** The line printed, the variables of the query and the url of the diff. *)
Definition details_line (pr_number : Z) : string :=
  "Fetching details for PR #" ++ PyStr.of_int pr_number
  ++ " from " ++ OWNER ++ "/" ++ REPO.

Definition details_variables (pr_number : Z) : value :=
  VDict [("owner", VStr OWNER); ("repo", VStr REPO); ("prNumber", VInt pr_number)].

Definition details_url (pr_number : Z) : string :=
  GITHUB_BASE_URL ++ "/repos/" ++ OWNER ++ "/" ++ REPO ++ "/pulls/"
  ++ PyStr.of_int pr_number.

(** Lines 271-288 on their own, between the two requests: either an early
    result (left) or the pull request with its commits filtered (right). *)
Definition prepared (pr_number : Z) (response : value) : outcome (value + value) :=
  (let? has_errors := Py.str_in "errors" response in
   if has_errors then
     let? errors := Py.getitem response "errors" in
     Return (inl (error_response (str_value errors)))
   else
     let? data := Py.get response "data" (VDict []) in
     let? repository := Py.get data "repository" (VDict []) in
     let? pr := Py.get repository "pullRequest" VNone in
     if negb (Py.truthy pr) then
       Return (inl (error_response
                      ("Pull Request #" ++ PyStr.of_int pr_number ++ " not found.")))
     else
       let? commits := Py.get pr "commits" (VDict []) in
       let? original_commits := Py.get commits "nodes" (VDict []) in
       let? pr := (if Py.truthy original_commits then
                     let? nodes := Py.iter original_commits in
                     let? filtered_commits := filter_commits nodes in
                     let? held := Py.getitem pr "commits" in
                     let? held := Py.setitem held "nodes" (VList filtered_commits) in
                     Py.setitem pr "commits" held
                   else Return pr) in
       Return (inr pr))%outcome.

(** The urls [add_label_to_pr] and [add_comment_to_pr] post to. *)
Definition label_url (pr_number : Z) : string :=
  GITHUB_BASE_URL ++ "/repos/" ++ OWNER ++ "/" ++ REPO ++ "/issues/"
  ++ PyStr.of_int pr_number ++ "/labels".

Definition comment_url (pr_number : Z) : string :=
  GITHUB_BASE_URL ++ "/repos/" ++ OWNER ++ "/" ++ REPO ++ "/issues/"
  ++ PyStr.of_int pr_number ++ "/comments".

(** What the handler of [get_pull_request_details] makes of an exception. *)
Definition reported (e : exn) (w : World) : outcome value * World :=
  if is_request_exception e
  then (Return (error_response (exn_str e)), w)
  else (Raise e, w).

End Stages.

(** [response["data"]["repository"]["pullRequest"]], when it is there. *)
Definition fetched_pull_request (response : value) : option value :=
  match field "data" response with
  | Some data =>
      match field "repository" data with
      | Some repository => field "pullRequest" repository
      | None => None
      end
  | None => None
  end.

(** The error results carry no success status. *)
Definition error_results_are_errors `{Utils} : Prop :=
  forall message, status_of (error_response message) <> Some (VStr "success").

(** The run returns the error result that carries [message], and that
    result has no success status. *)
Definition reports `{Utils} (run : outcome value * World) (message : string) : Prop :=
  fst run = Return (error_response message)
  /\ status_of (error_response message) <> Some (VStr "success").

(** The line [add_label_to_pr] prints and the message of its refusal. *)
Definition attempt_line (pr_number : Z) (label : string) : string :=
  "Attempting to add label '" ++ label ++ "' to PR #" ++ PyStr.of_int pr_number.

Definition refusal (label : string) : string :=
  "Error: Label '" ++ label ++ "' is not an allowed label. Will not apply.".

Section Observations.
Context `{Utils} `{Runtime}.

(** No prompt file or no config file is found for [repo_name]: reading
    the one or opening the other raises [FileNotFoundError], leaving the
    world as [w']. *)
Definition config_missing (repo_name : string) (w w' : World) : Prop :=
  let prompt_path := joinpath (joinpath module_dir "prompts") (repo_name ++ ".txt") in
  let config_path := joinpath (joinpath module_dir "configs") (repo_name ++ ".json") in
  (exists e, read_file prompt_path w = (Raise e, w') /\ is_file_not_found e = true)
  \/ (exists text e, read_file prompt_path w = (Return text, w')
                     /\ open_text config_path = Raise e
                     /\ is_file_not_found e = true).

(** What is asked of a start-up text bound to [variable]: it never holds a
    brace; it is the file with its braces turned into brackets when the file
    is read; it is [not_found] when the variable is unset or the file is not
    found. *)
Definition loads_markdown (loader : M string) (variable not_found : string) : Prop :=
  forall w : World,
    (forall text, fst (loader w) = Return text -> no_braces text)
    /\ (forall path text w',
          environ_lookup variable environ = Some path ->
          read_file path w = (Return text, w') ->
          loader w = (Return (brackets text), w'))
    /\ (environ_lookup variable environ = None ->
        loader w = (Return not_found, w))
    /\ (forall path e w',
          environ_lookup variable environ = Some path ->
          read_file path w = (Raise e, w') ->
          is_file_not_found e = true ->
          loader w = (Return not_found, w')).

End Observations.

(** ** A concrete installation *)

Module Example.

#[local] Instance settings : Settings := {|
    GITHUB_BASE_URL := "https://api.github.com";
    IS_INTERACTIVE := false;
    OWNER := "Universal-Commerce-Protocol";
    REPO := "ucp"
  |}.

Definition file_not_found (path : string) : exn :=
  Exn FileNotFoundError ("[Errno 2] No such file or directory: '" ++ path ++ "'").

Definition connection_error : exn :=
  Exn RequestException "Connection refused".

(** A platform that is down. *)
#[local] Instance utils_offline : Utils := {|
    error_response := fun message =>
      VDict [("status", VStr "error"); ("error_message", VStr message)];
    read_file := fun path =>
      if (path =? "/agent/prompts/ucp.txt")%string then ret "- ucp labelling rules"
      else if (path =? "/docs/CONTRIBUTING.md")%string then ret "Fill {name} in."
      else lift (Raise (file_not_found path));
    graphql_reply := fun _ _ _ => Raise connection_error;
    diff_reply := fun _ _ => Raise connection_error;
    post_reply := fun _ _ _ => Raise connection_error
  |}.

Definition merge_node : value :=
  VDict [("commit", VDict [("url", VStr "https://example.test/c/1");
                           ("message", VStr "Merge branch 'main' into feature")])].

Definition fix_node : value :=
  VDict [("commit", VDict [("url", VStr "https://example.test/c/2");
                           ("message", VStr "Fix typo")])].

Definition fetched_pr : value :=
  VDict [("number", VInt 42);
         ("state", VStr "OPEN");
         ("commits", VDict [("nodes", VList [merge_node; fix_node])])].

(** A platform that answers. *)
#[local] Instance utils_online : Utils := {|
    error_response := fun message =>
      VDict [("status", VStr "error"); ("error_message", VStr message)];
    read_file := fun path => lift (Raise (file_not_found path));
    graphql_reply := fun _ _ _ =>
      Return (VDict [("data", VDict [("repository",
                VDict [("pullRequest", fetched_pr)])])]);
    diff_reply := fun _ _ => Return "diff --git a/README.md b/README.md";
    post_reply := fun _ _ _ => Return (VList [])
  |}.

(** Only the ucp configuration is installed. *)
#[local] Instance runtime : Runtime := {|
    str_value := fun _ => "[...]";
    open_text := fun path =>
      if (path =? "/agent/configs/ucp.json")%string then Return "{...}"
      else Raise (file_not_found path);
    json_loads := fun _ =>
      Return (VDict [("allowed_labels", VList [VStr "documentation"; VStr "sdk"])]);
    environ := [("CONTRIBUTING_MD_PATH", "/docs/CONTRIBUTING.md");
                ("PULL_REQUEST_TEMPLATE_MD_PATH", "/docs/pull_request_template.md")];
    module_dir := "/agent";
    joinpath := fun dir name => dir ++ "/" ++ name
  |}.

#[local] Instance globals : Globals := {|
    PROMPT_TEMPLATE := BASE_PROMPT_TEMPLATE;
    ALLOWED_LABELS := VList [VStr "documentation"; VStr "sdk"]
  |}.

Definition fresh : World := mkWorld [] [].

Definition review : Comment :=
  mkComment "c1" "Could you split this change?" "2025-06-01T10:00:00Z" "bob".

Definition reminder : Comment :=
  mkComment "c2" "**Response from ADK Triaging Agent** Category is missing."
    "2025-06-01T11:00:00Z" "triage-bot".

Definition thanks : Comment :=
  mkComment "c3" "**Response from ADK Triaging Agent** Thank you for your contribution!"
    "2025-06-02T09:00:00Z" "triage-bot".

(** Pull request 42 of alice, open, with the given labels and comments. *)
Definition pr42 (labels : list string) (comments : list Comment) : PullRequest :=
  mkPullRequest 42 "Update README" "Description: fixes a typo" "OPEN" "alice"
    labels ["README.md"] comments ["Fix typo"] VNone "".

(** Evaluators that find every section satisfied and select a label. *)
Definition lenient : Engine.Setup := {|
  Engine.taxonomy := ["documentation"; "sdk"];
  Engine.evaluate := fun _ => [];
  Engine.select := fun _ => Some "documentation";
  Engine.sections_raised := fun c =>
    if PyStr.contains "Category" (comment_body c) then ["Category"] else [];
  Engine.looks_good := fun c => PyStr.contains "Thank you" (comment_body c);
  Engine.describe := fun _ missing => "Please fill in: " ++ String.concat ", " missing;
  Engine.acknowledge := fun _ => "Thank you for your contribution!"
|}.

(** Evaluators that find the given sections missing and select no label. *)
Definition strict (missing : list string) : Engine.Setup := {|
  Engine.taxonomy := ["documentation"; "sdk"];
  Engine.evaluate := fun _ => missing;
  Engine.select := fun _ => None;
  Engine.sections_raised := fun c =>
    if PyStr.contains "Category" (comment_body c) then ["Category"] else [];
  Engine.looks_good := fun c => PyStr.contains "Thank you" (comment_body c);
  Engine.describe := fun _ missing => "Please fill in: " ++ String.concat ", " missing;
  Engine.acknowledge := fun _ => "Thank you for your contribution!"
|}.

End Example.

(** ** [str.format] with keyword arguments *)

Module PyFormat.

(** The outcome of [template.format(k=v, ...)].  [NotModelled] marks the
    replacement fields this development does not follow: a conversion
    ([!r]), a format specification ([:>10]), attribute or index access
    ([a.b], [a[0]]), positional fields ([{0}]) and field names with
    characters outside ASCII. *)
Inductive formatted : Type :=
  | Formatted (text : string)
  | FormatRaise (e : exn)
  | NotModelled.

(** Where the scan stands: in literal text, just after an opening brace,
    just after a closing brace, or inside a replacement field whose name
    read so far is [name]. *)
Inductive mode : Type :=
  | Text
  | Opened
  | Closed
  | InField (name : string).

Definition value_error (msg : string) : exn := Exn (OtherException "ValueError") msg.
Definition index_error (msg : string) : exn := Exn (OtherException "IndexError") msg.

Definition prepend (literal : string) (r : formatted) : formatted :=
  match r with
  | Formatted text => Formatted (literal ++ text)
  | FormatRaise e => FormatRaise e
  | NotModelled => NotModelled
  end.

Fixpoint keyword (name : string) (kwargs : list (string * string)) : option string :=
  match kwargs with
  | [] => None
  | (k, v) :: rest => if (k =? name)%string then Some v else keyword name rest
  end.

Definition is_digit (c : ascii) : bool :=
  (48 <=? nat_of_ascii c)%nat && (nat_of_ascii c <=? 57)%nat.

Fixpoint all_digits (s : string) : bool :=
  match s with
  | EmptyString => true
  | String c s' => is_digit c && all_digits s'
  end.

(** The characters that make a field more than a plain keyword name. *)
Definition beyond_plain (c : ascii) : bool :=
  Ascii.eqb c "[" || Ascii.eqb c "." || Ascii.eqb c "!" || Ascii.eqb c ":"
  || (128 <=? nat_of_ascii c)%nat.

(** The end of a field named [name]: an empty name is the first positional
    argument, of which there is none; a plain name is looked up among the
    keyword arguments and its value is put out as it is. *)
Definition finish (kwargs : list (string * string)) (name : string)
    (after : formatted) : formatted :=
  match name with
  | EmptyString =>
      FormatRaise (index_error
        "Replacement index 0 out of range for positional args tuple")
  | String _ _ =>
      if all_digits name then NotModelled
      else match keyword name kwargs with
           | Some v => prepend v after
           | None => FormatRaise (Py.key_error name)
           end
  end.

(** One character [c] inside a field whose name so far is [name]. *)
Definition in_field (kwargs : list (string * string)) (name : string) (c : ascii)
    (after : formatted) (further : string -> formatted) : formatted :=
  if Ascii.eqb c "}" then finish kwargs name after
  else if Ascii.eqb c "{"
  then FormatRaise (value_error "unexpected '{' in field name")
  else if beyond_plain c then NotModelled
  else further (name ++ String c EmptyString).

(** The scan, from left to right; the first error met is the one raised. *)
Fixpoint scan (kwargs : list (string * string)) (m : mode) (s : string) : formatted :=
  match s with
  | EmptyString =>
      match m with
      | Text => Formatted EmptyString
      | Opened =>
          FormatRaise (value_error "Single '{' encountered in format string")
      | Closed =>
          FormatRaise (value_error "Single '}' encountered in format string")
      | InField _ =>
          FormatRaise (value_error "expected '}' before end of string")
      end
  | String c rest =>
      match m with
      | Text =>
          if Ascii.eqb c "{" then scan kwargs Opened rest
          else if Ascii.eqb c "}" then scan kwargs Closed rest
          else prepend (String c EmptyString) (scan kwargs Text rest)
      | Opened =>
          if Ascii.eqb c "{" then prepend "{" (scan kwargs Text rest)
          else in_field kwargs EmptyString c (scan kwargs Text rest)
                 (fun name => scan kwargs (InField name) rest)
      | Closed =>
          if Ascii.eqb c "}" then prepend "}" (scan kwargs Text rest)
          else FormatRaise (value_error "Single '}' encountered in format string")
      | InField name =>
          in_field kwargs name c (scan kwargs Text rest)
            (fun name' => scan kwargs (InField name') rest)
      end
  end.

(** [template.format(k=v, ...)], the values given as the text they are put
    out as. *)
Definition format (template : string) (kwargs : list (string * string)) : formatted :=
  scan kwargs Text template.

(** A template cut into literal text and plain fields. *)
Inductive segment : Type :=
  | Lit (text : string)
  | Field (name : string).

Definition render (seg : segment) : string :=
  match seg with
  | Lit text => text
  | Field name => "{" ++ name ++ "}"
  end.

Definition fill (kwargs : list (string * string)) (seg : segment) : string :=
  match seg with
  | Lit text => text
  | Field name => match keyword name kwargs with Some v => v | None => EmptyString end
  end.

Fixpoint plain_name (s : string) : bool :=
  match s with
  | EmptyString => true
  | String c s' =>
      negb (Ascii.eqb c "{") && negb (Ascii.eqb c "}") && negb (beyond_plain c)
      && plain_name s'
  end.

(** A literal without braces, or a field with a plain, non-empty name that
    is not a number and is among the keyword arguments. *)
Definition well_formed (kwargs : list (string * string)) (seg : segment) : Prop :=
  match seg with
  | Lit text => no_braces text
  | Field name =>
      plain_name name = true /\ name <> EmptyString /\ all_digits name = false
      /\ keyword name kwargs <> None
  end.

End PyFormat.

(** ** The template as literal texts and fields *)

(** The literal texts of a template, in order: what stands before its first
    field, between two fields, and after its last one. *)
Fixpoint literals (inside : bool) (s : string) : list string :=
  match s with
  | EmptyString => [EmptyString]
  | String c rest =>
      if inside then literals (negb (Ascii.eqb c "}")) rest
      else if Ascii.eqb c "{" then EmptyString :: literals true rest
      else match literals false rest with
           | [] => [String c EmptyString]
           | text :: texts => String c text :: texts
           end
  end.

Fixpoint render_all (segs : list PyFormat.segment) : string :=
  match segs with
  | [] => EmptyString
  | seg :: rest => PyFormat.render seg ++ render_all rest
  end.

Fixpoint fill_all (kwargs : list (string * string)) (segs : list PyFormat.segment)
  : string :=
  match segs with
  | [] => EmptyString
  | seg :: rest => PyFormat.fill kwargs seg ++ fill_all kwargs rest
  end.

(** The [n]-th literal text of [BASE_PROMPT_TEMPLATE]. *)
Definition template_text (n : nat) : string :=
  nth n (literals false BASE_PROMPT_TEMPLATE) EmptyString.

(** [BASE_PROMPT_TEMPLATE] up to the placeholder of the guidelines, and
    after it. *)
Definition TEMPLATE_BEFORE_GUIDELINES : list PyFormat.segment :=
  [PyFormat.Lit (template_text 0); PyFormat.Field "REPO";
   PyFormat.Lit (template_text 1); PyFormat.Field "OWNER";
   PyFormat.Lit (template_text 2); PyFormat.Field "APPROVAL_INSTRUCTION";
   PyFormat.Lit (template_text 3)].

Definition TEMPLATE_AFTER_GUIDELINES : list PyFormat.segment :=
  [PyFormat.Lit (template_text 4); PyFormat.Field "CONTRIBUTING_MD";
   PyFormat.Lit (template_text 5); PyFormat.Field "PULL_REQUEST_TEMPLATE_MD";
   PyFormat.Lit (template_text 6); PyFormat.Field "ALLOWED_LABELS";
   PyFormat.Lit (template_text 7); PyFormat.Field "ALLOWED_LABELS";
   PyFormat.Lit (template_text 8)].

(** The names [root_agent] passes to [format]. *)
Definition INSTRUCTION_KEYWORDS : list string :=
  ["REPO"; "OWNER"; "APPROVAL_INSTRUCTION"; "CONTRIBUTING_MD";
   "PULL_REQUEST_TEMPLATE_MD"; "ALLOWED_LABELS"].

Section RootAgent.
Context `{Settings} `{Runtime} `{Globals}.

(** The [instruction] argument of [root_agent], lines 361-368, for the two
    start-up texts as loaded.  A list is put out by [str.format] as [str]
    gives it. *)
Definition root_agent_instruction (contributing_md pull_request_template_md : string)
  : PyFormat.formatted :=
  PyFormat.format PROMPT_TEMPLATE
    [("REPO", REPO);
     ("OWNER", OWNER);
     ("APPROVAL_INSTRUCTION", approval_instruction);
     ("CONTRIBUTING_MD", contributing_md);
     ("PULL_REQUEST_TEMPLATE_MD", pull_request_template_md);
     ("ALLOWED_LABELS", str_value ALLOWED_LABELS)].

End RootAgent.

(** The line [add_comment_to_pr] prints. *)
Definition comment_line (pr_number : Z) (comment : string) : string :=
  "Attempting to add comment '" ++ comment ++ "' to issue #"
  ++ PyStr.of_int pr_number.

(** ** Further installations *)

Module Scenario.

Definition error_result (message : string) : value :=
  VDict [("status", VStr "error"); ("error_message", VStr message)].

(** A platform that answers every query with [reply], serves a short diff
    and accepts every post; the prompt of repository acme is installed. *)
Definition platform (reply : value) : Utils := {|
  error_response := error_result;
  read_file := fun path =>
    if (path =? "/agent/prompts/acme.txt")%string then ret "- acme labelling rules"
    else if (path =? "/docs/CONTRIBUTING.md")%string then ret "Sign the CLA."
    else if (path =? "/docs/secret.md")%string
    then lift (Raise (Exn (OtherException "PermissionError") "Permission denied"))
    else lift (Raise (Example.file_not_found path));
  graphql_reply := fun _ _ _ => Return reply;
  diff_reply := fun _ _ => Return "diff --git a/README.md b/README.md";
  post_reply := fun _ _ _ => Return (VList [VDict [("name", VStr "sdk")]])
|}.

Definition in_repository (pr : value) : value :=
  VDict [("data", VDict [("repository", VDict [("pullRequest", pr)])])].

Definition errors_reply : value :=
  VDict [("data", VDict [("repository", VNone)]);
         ("errors", VList [VDict [("message", VStr "Could not resolve")]])].

Definition null_reply : value := in_repository VNone.

Definition broken_reply : value :=
  in_repository
    (VDict [("number", VInt 42);
            ("commits", VDict [("nodes", VList [Example.fix_node; VNone])])]).

Definition full_reply : value :=
  in_repository
    (VDict [("number", VInt 42);
            ("title", VStr "Update README");
            ("commits", VDict [("totalCount", VInt 2);
                               ("nodes", VList [Example.merge_node;
                                                Example.fix_node])])]).

(** The config of repository acme is installed; what it decodes to depends
    on its text. *)
Definition installed (acme_json : string) : Runtime := {|
  str_value := fun _ => "[{'message': 'Could not resolve'}]";
  open_text := fun path =>
    if (path =? "/agent/configs/acme.json")%string then Return acme_json
    else Raise (Example.file_not_found path);
  json_loads := fun text =>
    if (text =? "[]")%string then Return (VList [])
    else if (text =? "{}")%string then Return (VDict [])
    else if (text =? "{")%string
    then Raise (Exn (OtherException "JSONDecodeError") "Expecting property name")
    else Return (VDict [("allowed_labels", VList [VStr "bug"; VStr "feature"])]);
  environ := [("CONTRIBUTING_MD_PATH", "/docs/CONTRIBUTING.md");
              ("PULL_REQUEST_TEMPLATE_MD_PATH", "/docs/secret.md")];
  module_dir := "/agent";
  joinpath := fun dir name => dir ++ "/" ++ name
|}.

(** The names bound at line 164 when the guidelines read are [guidelines]. *)
Definition loaded (guidelines : string) : Globals :=
  Build_Globals
    (PyStr.replace "{repo_specific_guidelines}" guidelines BASE_PROMPT_TEMPLATE)
    (VList [VStr "documentation"; VStr "sdk"]).

Definition taxonomy (labels : value) : Globals := {|
  PROMPT_TEMPLATE := BASE_PROMPT_TEMPLATE;
  ALLOWED_LABELS := labels
|}.

End Scenario.

(** * Properties *)

(** ** Strings *)

Lemma take_length (n : nat) (s : string) :
  String.length (PyStr.take n s) = Nat.min n (String.length s).
Proof.
  revert s; induction n as [|n IH]; intros [|c s]; simpl; try reflexivity.
  now rewrite IH.
Qed.

Lemma take_is_prefix (n : nat) (s : string) :
  exists rest, s = (PyStr.take n s ++ rest)%string.
Proof.
  revert s; induction n as [|n IH]; intros s.
  - exists s. now destruct s.
  - destruct s as [|c s].
    + now exists EmptyString.
    + destruct (IH s) as [rest Hrest]. exists rest. simpl. now rewrite <- Hrest.
Qed.

Lemma replace_one_char (a b : ascii) (s : string) :
  PyStr.replace (String a EmptyString) (String b EmptyString) s
  = map_chars (fun c => if Ascii.eqb a c then b else c) s.
Proof.
  unfold PyStr.replace.
  induction s as [|c s IH]; simpl; [reflexivity|].
  rewrite IH. rewrite andb_true_r. now destruct (Ascii.eqb a c).
Qed.

Lemma map_chars_compose (f g : ascii -> ascii) (s : string) :
  map_chars g (map_chars f s) = map_chars (fun c => g (f c)) s.
Proof. induction s as [|c s IH]; simpl; congruence. Qed.

Lemma map_chars_ext (f g : ascii -> ascii) (s : string) :
  (forall c, f c = g c) -> map_chars f s = map_chars g s.
Proof. intros Hfg. induction s as [|c s IH]; simpl; congruence. Qed.

Lemma replace_braces (s : string) :
  PyStr.replace "}" "]" (PyStr.replace "{" "[" s) = brackets s.
Proof.
  rewrite !replace_one_char, map_chars_compose. unfold brackets.
  apply map_chars_ext. intros c. unfold bracket.
  rewrite (Ascii.eqb_sym c "{"), (Ascii.eqb_sym c "}").
  destruct (Ascii.eqb "{" c); reflexivity.
Qed.

Lemma bracket_is_no_brace (c : ascii) :
  Ascii.eqb (bracket c) "{" = false /\ Ascii.eqb (bracket c) "}" = false.
Proof.
  unfold bracket.
  destruct (Ascii.eqb c "{") eqn:Hopen; [now split|].
  destruct (Ascii.eqb c "}") eqn:Hclose; [now split|].
  now split.
Qed.

Lemma brackets_no_braces (s : string) : no_braces (brackets s).
Proof.
  unfold no_braces, brackets.
  induction s as [|c s [IHopen IHclose]]; simpl; [now split|].
  destruct (bracket_is_no_brace c) as [-> ->]. now split.
Qed.

Lemma brackets_length (s : string) :
  String.length (brackets s) = String.length s.
Proof. unfold brackets. induction s as [|c s IH]; simpl; congruence. Qed.

Lemma brackets_fixes_brace_free (s : string) :
  no_braces s -> brackets s = s.
Proof.
  unfold no_braces, brackets.
  induction s as [|c s IH]; simpl; [reflexivity|].
  intros [Hopen Hclose].
  apply orb_false_elim in Hopen as [Hc1 Hs1].
  apply orb_false_elim in Hclose as [Hc2 Hs2].
  rewrite IH by now split. unfold bracket. now rewrite Hc1, Hc2.
Qed.

(** ** Start-up: the contribution guide and the template *)

Section MarkdownFacts.
Context `{Utils} `{Runtime}.

Lemma load_markdown_unset (variable not_found : string) (w : World) :
  environ_lookup variable environ = None ->
  load_markdown variable not_found w = (Return not_found, w).
Proof.
  intros Hunset. unfold load_markdown, try_except, bind, lift, environ_getitem.
  now rewrite Hunset.
Qed.

Lemma load_markdown_read (variable not_found path text : string) (w w' : World) :
  environ_lookup variable environ = Some path ->
  read_file path w = (Return text, w') ->
  load_markdown variable not_found w = (Return (brackets text), w').
Proof.
  intros Hset Hread. unfold load_markdown, try_except, bind, lift, environ_getitem.
  rewrite Hset, Hread. unfold ret. now rewrite replace_braces.
Qed.

Lemma load_markdown_raise (variable not_found path : string) (e : exn) (w w' : World) :
  environ_lookup variable environ = Some path ->
  read_file path w = (Raise e, w') ->
  load_markdown variable not_found w
  = if is_file_not_found e || is_key_error e
    then (Return not_found, w') else (Raise e, w').
Proof.
  intros Hset Hread. unfold load_markdown, try_except, bind, lift, environ_getitem.
  now rewrite Hset, Hread.
Qed.

Lemma load_markdown_no_braces (variable not_found text : string) (w : World) :
  no_braces not_found ->
  fst (load_markdown variable not_found w) = Return text ->
  no_braces text.
Proof.
  intros Hplain Hrun.
  destruct (environ_lookup variable environ) as [path|] eqn:Hset.
  - destruct (read_file path w) as [[read|e] w'] eqn:Hread.
    + rewrite (load_markdown_read _ _ _ _ _ _ Hset Hread) in Hrun.
      injection Hrun as <-. apply brackets_no_braces.
    + rewrite (load_markdown_raise _ _ _ _ _ _ Hset Hread) in Hrun.
      destruct (is_file_not_found e || is_key_error e); [|discriminate].
      now injection Hrun as <-.
  - rewrite (load_markdown_unset _ _ _ Hset) in Hrun. now injection Hrun as <-.
Qed.

End MarkdownFacts.

Lemma load_markdown_spec `{Utils} `{Runtime} (variable not_found : string) :
  no_braces not_found ->
  loads_markdown (load_markdown variable not_found) variable not_found.
Proof.
  intros Hplain w. split; [|split; [|split]].
  - intros text. now apply load_markdown_no_braces.
  - intros path text w'. apply load_markdown_read.
  - apply load_markdown_unset.
  - intros path e w' Hset Hread Hmissing.
    rewrite (load_markdown_raise _ _ _ _ _ _ Hset Hread).
    now rewrite Hmissing.
Qed.

(** C10. The texts bound to [CONTRIBUTING_MD] and [PULL_REQUEST_TEMPLATE_MD]
    at start-up hold no opening and no closing brace: when the file named by
    the environment variable is read, every opening brace of its content has
    become an opening bracket and every closing brace a closing bracket;
    when the variable is unset or the file is not found, the text is the
    fixed "not found" sentence. *)
Theorem startup_markdown_has_no_braces `{Utils} `{Runtime} :
  loads_markdown CONTRIBUTING_MD
    "CONTRIBUTING_MD_PATH" "CONTRIBUTING.md not found."
  /\ loads_markdown PULL_REQUEST_TEMPLATE_MD
       "PULL_REQUEST_TEMPLATE_MD_PATH" "pull_request_template.md not found.".
Proof.
  split; apply load_markdown_spec; split; reflexivity.
Qed.

Lemma startup_markdown_has_no_braces_witness :
  @CONTRIBUTING_MD Example.utils_offline Example.runtime Example.fresh
    = (Return "Fill [name] in.", Example.fresh)
  /\ @PULL_REQUEST_TEMPLATE_MD Example.utils_offline Example.runtime Example.fresh
     = (Return "pull_request_template.md not found.", Example.fresh).
Proof.
  destruct (@startup_markdown_has_no_braces Example.utils_offline Example.runtime)
    as [Hguide Htemplate].
  destruct (Hguide Example.fresh) as (_ & Hread & _ & _).
  destruct (Htemplate Example.fresh) as (_ & _ & _ & Hmissing).
  split.
  - apply (Hread "/docs/CONTRIBUTING.md" "Fill {name} in."); reflexivity.
  - apply (Hmissing "/docs/pull_request_template.md"
             (Example.file_not_found "/docs/pull_request_template.md"));
      reflexivity.
Defined.

(** ** Labelling *)

Lemma str_in_list_false (label : string) (names : list value) :
  ~ In (VStr label) names ->
  Py.str_in label (VList names) = Return false.
Proof.
  intros Hout. simpl. f_equal.
  induction names as [|x names IH]; simpl; [reflexivity|].
  rewrite IH by (intros Hin; apply Hout; now right).
  destruct x; try reflexivity.
  destruct (String.eqb_spec s label) as [->|]; [|reflexivity].
  exfalso. apply Hout. now left.
Qed.

Lemma str_in_list_true (label : string) (names : list value) :
  In (VStr label) names ->
  Py.str_in label (VList names) = Return true.
Proof.
  intros Hin. simpl. f_equal. apply existsb_exists.
  exists (VStr label). split; [assumption|]. apply String.eqb_refl.
Qed.

Section LabelFacts.
Context `{Settings} `{Utils} `{Globals}.

Lemma add_label_to_pr_not_in (pr_number : Z) (label : string) (w : World) :
  Py.str_in label ALLOWED_LABELS = Return false ->
  add_label_to_pr pr_number label w
  = (Return (error_response (refusal label)),
     mkWorld (stdout w ++ [attempt_line pr_number label]) (requests w)).
Proof.
  intros Hout. unfold add_label_to_pr, bind, print, lift.
  now rewrite Hout.
Qed.

(** The only request [add_label_to_pr] ever sends carries a label that
    passed the membership test. *)
Lemma add_label_to_pr_requests (pr_number : Z) (label : string) (w : World) :
  requests (snd (add_label_to_pr pr_number label w)) = requests w
  \/ (Py.str_in label ALLOWED_LABELS = Return true
      /\ requests (snd (add_label_to_pr pr_number label w))
         = (requests w ++ [Post (label_url pr_number) (VList [VStr label])])%list).
Proof.
  unfold add_label_to_pr, try_except, bind, print, post_request, lift, ret.
  fold (label_url pr_number).
  destruct (Py.str_in label ALLOWED_LABELS) as [[|]|e]; cbn [negb stdout requests snd];
    [right; split; [reflexivity|] | now left | now left].
  destruct (post_reply _ _ _) as [response|e]; [reflexivity|].
  now destruct (is_request_exception e).
Qed.

End LabelFacts.

(** C1. With [ALLOWED_LABELS] a list, a label that is not one of its
    members makes [add_label_to_pr] return the error result built by
    [error_response]; the call prints its one line and sends no request, so
    no name outside the taxonomy is applied. *)
Theorem add_label_to_pr_rejects_unlisted `{Settings} `{Utils} `{Globals}
    (pr_number : Z) (label : string) (names : list value) (w : World) :
  ALLOWED_LABELS = VList names ->
  ~ In (VStr label) names ->
  add_label_to_pr pr_number label w
  = (Return (error_response (refusal label)),
     mkWorld (stdout w ++ [attempt_line pr_number label]) (requests w))
  /\ requests (snd (add_label_to_pr pr_number label w)) = requests w.
Proof.
  intros Hlist Hout.
  assert (Hrun := add_label_to_pr_not_in pr_number label w).
  rewrite Hlist in Hrun. specialize (Hrun (str_in_list_false _ _ Hout)).
  split; [exact Hrun|]. now rewrite Hrun.
Qed.

Lemma add_label_to_pr_rejects_unlisted_witness :
  @add_label_to_pr Example.settings Example.utils_online Example.globals
     42 "bug" Example.fresh
  = (Return (VDict [("status", VStr "error");
                    ("error_message",
                     VStr "Error: Label 'bug' is not an allowed label. Will not apply.")]),
     mkWorld ["Attempting to add label 'bug' to PR #42"] []).
Proof.
  refine (proj1 (@add_label_to_pr_rejects_unlisted
                   Example.settings Example.utils_online Example.globals
                   42 "bug" [VStr "documentation"; VStr "sdk"] Example.fresh
                   eq_refl _)).
  intros [Hin|[Hin|[]]]; discriminate Hin.
Defined.

(** ** Configuration *)

Section ConfigFacts.
Context `{Utils} `{Runtime}.

Lemma load_named_config_missing (repo_name : string) (w w' : World) :
  config_missing repo_name w w' ->
  exists e, load_named_config repo_name w = (Raise e, w')
            /\ is_file_not_found e = true.
Proof.
  intros [(e & Hread & Hclass) | (text & e & Hread & Hopen & Hclass)];
    exists e; (split; [|assumption]);
    unfold load_named_config, bind, lift; rewrite Hread; [reflexivity|].
  now rewrite Hopen.
Qed.

Lemma get_repo_config_handler (repo_name : string) (e : exn) (w w' : World) :
  load_named_config repo_name w = (Raise e, w') ->
  is_file_not_found e = true ->
  get_repo_config repo_name w = load_ucp_config repo_name w'.
Proof.
  intros Hbody Hclass. unfold get_repo_config, try_except.
  now rewrite Hbody, Hclass.
Qed.

End ConfigFacts.

(** C2, as the code has it. When the prompt file or the config file of the
    repository is not found, [get_repo_config] does not pass the condition
    on: it prints that it falls back and loads the ucp prompt and the ucp
    config instead.  The result is that of the fallback: the ucp prompt and
    the ucp allowed labels when the ucp files are read, and whatever the
    fallback raises when they are not. *)
Theorem get_repo_config_falls_back `{Utils} `{Runtime}
    (repo_name : string) (w w' : World) :
  config_missing repo_name w w' ->
  get_repo_config repo_name w = load_ucp_config repo_name w'
  /\ (forall guidelines f entries w'',
        read_file (joinpath (joinpath module_dir "prompts") "ucp.txt")
          (mkWorld ((stdout w' ++ ["Error: No prompt or config found for repo: "
                                   ++ repo_name])
                    ++ ["Falling back to ucp config."]) (requests w'))
        = (Return guidelines, w'') ->
        open_text (joinpath (joinpath module_dir "configs") "ucp.json") = Return f ->
        json_loads f = Return (VDict entries) ->
        get_repo_config repo_name w
        = (Return (PyStr.replace "{repo_specific_guidelines}" guidelines
                     BASE_PROMPT_TEMPLATE,
                   match Py.lookup "allowed_labels" entries with
                   | Some labels => labels
                   | None => VList []
                   end), w'')).
Proof.
  intros Hmissing.
  destruct (load_named_config_missing _ _ _ Hmissing) as (e & Hbody & Hclass).
  assert (Hrun := get_repo_config_handler _ _ _ _ Hbody Hclass).
  split; [exact Hrun|].
  intros guidelines f entries w'' Hread Hopen Hjson.
  rewrite Hrun. unfold load_ucp_config, bind, print, lift.
  cbn [stdout requests]. rewrite Hread, Hopen, Hjson. reflexivity.
Qed.

Lemma get_repo_config_falls_back_witness :
  @get_repo_config Example.utils_offline Example.runtime "acme" Example.fresh
  = @load_ucp_config Example.utils_offline Example.runtime "acme" Example.fresh.
Proof.
  refine (proj1 (@get_repo_config_falls_back
                   Example.utils_offline Example.runtime
                   "acme" Example.fresh Example.fresh _)).
  left. exists (Example.file_not_found "/agent/prompts/acme.txt").
  split; reflexivity.
Defined.

(** C2, as the specification has it, fails: with only the ucp configuration
    installed, loading the configuration of another repository returns the
    ucp prompt and labels instead of raising. *)
Lemma get_repo_config_does_not_propagate :
  ~ (forall (U : Utils) (R : Runtime) (repo_name : string) (w w' : World),
        config_missing repo_name w w' ->
        exists e, fst (get_repo_config repo_name w) = Raise e).
Proof.
  intros Hclaim.
  destruct (Hclaim Example.utils_offline Example.runtime
              "acme" Example.fresh Example.fresh) as [e He].
  - left. exists (Example.file_not_found "/agent/prompts/acme.txt").
    split; reflexivity.
  - vm_compute in He. discriminate He.
Qed.

(** ** The duplicate suppressor *)

Section SuppressorFacts.
Import DuplicateSuppressor.
Variable sections_raised : Comment -> list string.
Variable looks_good : Comment -> bool.

Lemma most_recent_last (earlier : list Comment) (recent : Comment) :
  most_recent (earlier ++ [recent])%list = Some recent.
Proof.
  unfold most_recent. rewrite map_app. simpl. apply last_last.
Qed.

Lemma mentions_iff (sections : list string) (s : string) :
  mentions sections s = true <-> In s sections.
Proof.
  unfold mentions. rewrite existsb_exists. split.
  - intros (x & Hin & Hx). apply String.eqb_eq in Hx. now subst.
  - intros Hin. exists s. split; [assumption | apply String.eqb_refl].
Qed.

Lemma subset_iff (xs ys : list string) :
  subset xs ys = true <-> (forall s, In s xs -> In s ys).
Proof.
  unfold subset. rewrite forallb_forall.
  split; intros Hall s Hin; apply mentions_iff; now apply Hall.
Qed.

Lemma should_comment_after (text : string) (earlier : list Comment)
    (recent : Comment) (s : string) (rest : list string) :
  should_comment sections_raised looks_good text (earlier ++ [recent])%list (s :: rest)
  = negb (subset (s :: rest) (sections_raised recent)).
Proof. unfold should_comment. now rewrite most_recent_last. Qed.

End SuppressorFacts.

(** C5. When the most recent bot comment refers to every section that is
    missing now, and some section is missing, [should_comment] answers
    false, and does so on every run over that snapshot, whatever text is
    proposed. *)
Theorem should_comment_suppresses_repeat
    (sections_raised : Comment -> list string) (looks_good : Comment -> bool)
    (proposed_text : string) (earlier : list Comment) (recent : Comment)
    (current_missing_sections : list string) :
  current_missing_sections <> [] ->
  (forall s, In s current_missing_sections -> In s (sections_raised recent)) ->
  DuplicateSuppressor.should_comment sections_raised looks_good
    proposed_text (earlier ++ [recent])%list current_missing_sections = false.
Proof.
  intros Hsome Hraised.
  destruct current_missing_sections as [|s rest]; [contradiction|].
  rewrite should_comment_after. apply negb_false_iff.
  now apply subset_iff.
Qed.

Lemma should_comment_suppresses_repeat_witness :
  DuplicateSuppressor.should_comment
    (fun _ => ["Category"; "Description"]) (fun _ => false)
    "Category is still missing." [Example.reminder] ["Category"] = false.
Proof.
  refine (should_comment_suppresses_repeat
            (fun _ => ["Category"; "Description"]) (fun _ => false)
            "Category is still missing." [] Example.reminder ["Category"] _ _).
  - discriminate.
  - intros s [<-|[]]. now left.
Defined.


(** ** The triage decision engine *)

Section EngineFacts.
Import Engine.
Variable cfg : Setup.

Lemma decide_unfold (item : PullRequest) :
  decide cfg item
  = if already_labeled cfg item then Skip "already labeled"
    else if closed item then Skip "closed"
    else if involved item then Skip "human involved"
    else match evaluate cfg item with
         | [] =>
             match select cfg item with
             | None => Skip "no confident category"
             | Some name =>
                 if in_taxonomy cfg name then
                   if DuplicateSuppressor.should_comment
                        (sections_raised cfg) (looks_good cfg)
                        (acknowledge cfg item) (prior_bot_comments item) []
                   then LabelAndComment name (acknowledge cfg item)
                   else Label name
                 else Skip "label outside the taxonomy"
             end
         | missing =>
             if DuplicateSuppressor.should_comment
                  (sections_raised cfg) (looks_good cfg)
                  (describe cfg item missing) (prior_bot_comments item) missing
             then CommentOnly (describe cfg item missing)
             else Skip "already raised"
         end.
Proof.
  unfold decide. cbn [run step].
  destruct (already_labeled cfg item); cbn [step]; [reflexivity|].
  destruct (closed item); cbn [step]; [reflexivity|].
  destruct (involved item); cbn [step]; [reflexivity|].
  destruct (evaluate cfg item) as [|section others] eqn:Hverdict; cbn [step].
  - destruct (select cfg item) as [name|]; cbn [step]; [|reflexivity].
    destruct (in_taxonomy cfg name); cbn [step]; [|reflexivity].
    now destruct (DuplicateSuppressor.should_comment _ _ _ _ _).
  - rewrite Hverdict.
    now destruct (DuplicateSuppressor.should_comment _ _ _ _ _).
Qed.

(** Every run ends within six transitions: the engine never fails closed
    for want of a decision. *)
Lemma run_ends (item : PullRequest) :
  exists d, run cfg item 6 Start = Terminal d.
Proof.
  cbn [run step].
  destruct (already_labeled cfg item); cbn [step]; [now eexists|].
  destruct (closed item); cbn [step]; [now eexists|].
  destruct (involved item); cbn [step]; [now eexists|].
  destruct (evaluate cfg item) as [|section others] eqn:Hverdict; cbn [step].
  - destruct (select cfg item) as [name|]; cbn [step]; [|now eexists].
    destruct (in_taxonomy cfg name); cbn [step]; [|now eexists].
    destruct (DuplicateSuppressor.should_comment _ _ _ _ _); now eexists.
  - rewrite Hverdict.
    destruct (DuplicateSuppressor.should_comment _ _ _ _ _); now eexists.
Qed.

Lemma in_taxonomy_iff (name : string) :
  in_taxonomy cfg name = true <-> In name (taxonomy cfg).
Proof.
  unfold in_taxonomy. rewrite existsb_exists. split.
  - intros (x & Hin & Hx). apply String.eqb_eq in Hx. now subst.
  - intros Hin. exists name. split; [assumption | apply String.eqb_refl].
Qed.

Lemma already_labeled_iff (item : PullRequest) :
  already_labeled cfg item = true
  <-> exists name, In name (pr_labels item) /\ In name (taxonomy cfg).
Proof.
  unfold already_labeled. rewrite existsb_exists.
  split; intros (name & Hin & Hname); exists name; (split; [assumption|]);
    now apply in_taxonomy_iff.
Qed.

Lemma labelled_skip (item : PullRequest) :
  already_labeled cfg item = true -> decide cfg item = Skip "already labeled".
Proof. intros Hlabelled. rewrite decide_unfold. now rewrite Hlabelled. Qed.

Lemma emitted_label_is_taxonomy_member (item : PullRequest) (name : string) :
  label_of (decide cfg item) = Some name -> In name (taxonomy cfg).
Proof.
  rewrite decide_unfold.
  destruct (already_labeled cfg item); [discriminate|].
  destruct (closed item); [discriminate|].
  destruct (involved item); [discriminate|].
  destruct (evaluate cfg item) as [|section others]; cbv beta iota zeta.
  - destruct (select cfg item) as [selected|]; [|discriminate].
    destruct (in_taxonomy cfg selected) eqn:Hmember; [|discriminate].
    apply in_taxonomy_iff in Hmember.
    destruct (DuplicateSuppressor.should_comment _ _ _ _ _);
      cbn [label_of]; now intros [= <-].
  - destruct (DuplicateSuppressor.should_comment _ _ _ _ _); discriminate.
Qed.

End EngineFacts.

Lemma from_human_iff (author : string) (c : Comment) :
  Engine.from_human author c = true
  <-> comment_author_login c <> author
      /\ PyStr.contains BOT_MARKER (comment_body c) = false.
Proof.
  unfold Engine.from_human. rewrite andb_true_iff, !negb_true_iff.
  now rewrite String.eqb_neq.
Qed.

Lemma scan_iff (author : string) (comments : list Comment) :
  Engine.scan author comments = true
  <-> exists c, In c comments /\ Engine.from_human author c = true.
Proof.
  induction comments as [|c rest IH]; cbn [Engine.scan].
  - split; [discriminate | now intros (c & [] & _)].
  - destruct (Engine.from_human author c) eqn:Hc.
    + split; [|reflexivity]. intros _. exists c. split; [now left | assumption].
    + rewrite IH. split.
      * intros (c' & Hin & Hc'). exists c'. split; [now right | assumption].
      * intros (c' & [<-|Hin] & Hc'); [congruence|]. now exists c'.
Qed.

Lemma scan_first (author : string) (before after : list Comment) (c : Comment) :
  Engine.from_human author c = true ->
  Engine.scan author (before ++ c :: after) = true.
Proof.
  intros Hc. apply scan_iff. exists c. split; [|assumption].
  apply in_or_app. right. now left.
Qed.

Lemma involved_iff (item : PullRequest) :
  Engine.involved item = true
  <-> exists c, In c (pr_comments item)
                /\ comment_author_login c <> pr_author_login item
                /\ PyStr.contains BOT_MARKER (comment_body c) = false.
Proof.
  unfold Engine.involved. rewrite scan_iff.
  split; intros (c & Hin & Hc); exists c; (split; [assumption|]);
    now apply from_human_iff.
Qed.

Lemma involved_skip (cfg : Engine.Setup) (item : PullRequest) :
  Engine.involved item = true ->
  exists reason, Engine.decide cfg item = Engine.Skip reason.
Proof.
  intros Hinvolved. rewrite decide_unfold, Hinvolved.
  destruct (Engine.already_labeled cfg item); [now eexists|].
  destruct (Engine.closed item); now eexists.
Qed.

(** The concrete scenarios of section 8: a missing section on a fresh item
    is commented on; a reviewer's comment makes the engine skip; an item in
    order is labelled and thanked, and labelled without a second thanks once
    the thanks of the bot is among the comments. *)
Lemma engine_scenarios :
  Engine.decide (Example.strict ["Category"]) (Example.pr42 [] [])
  = Engine.CommentOnly "Please fill in: Category"
  /\ Engine.decide (Example.strict ["Category"]) (Example.pr42 [] [Example.review])
     = Engine.Skip "human involved"
  /\ Engine.decide Example.lenient (Example.pr42 [] [])
     = Engine.LabelAndComment "documentation" "Thank you for your contribution!"
  /\ Engine.decide Example.lenient (Example.pr42 [] [Example.thanks])
     = Engine.Label "documentation".
Proof. repeat split. Qed.

(** C3. An item that already carries a label of the taxonomy is skipped by
    the engine, whatever its state, its comments and the verdicts of the
    evaluators are: no label and no comment.  A label the engine emits is a
    member of the taxonomy, which the membership test of [add_label_to_pr]
    accepts, so once it is on the item every later run on a snapshot that
    carries it is skipped: no second label is added. *)
Theorem labelled_item_is_skipped (cfg : Engine.Setup) (item : PullRequest) :
  ((exists name, In name (pr_labels item) /\ In name (Engine.taxonomy cfg)) ->
   Engine.decide cfg item = Engine.Skip "already labeled"
   /\ Engine.label_of (Engine.decide cfg item) = None
   /\ Engine.comment_of (Engine.decide cfg item) = None)
  /\ (forall earlier name,
        Engine.label_of (Engine.decide cfg earlier) = Some name ->
        In name (Engine.taxonomy cfg)
        /\ Py.str_in name (VList (map VStr (Engine.taxonomy cfg))) = Return true
        /\ (In name (pr_labels item) ->
            Engine.decide cfg item = Engine.Skip "already labeled")).
Proof.
  split.
  - intros Hcarries.
    assert (Hskip : Engine.decide cfg item = Engine.Skip "already labeled")
      by now apply labelled_skip, already_labeled_iff.
    rewrite Hskip. repeat split.
  - intros earlier name Hemitted.
    assert (Hmember := emitted_label_is_taxonomy_member _ _ _ Hemitted).
    split; [assumption|]. split.
    + apply str_in_list_true. now apply in_map.
    + intros Hcarried. apply labelled_skip, already_labeled_iff. now exists name.
Qed.

Lemma labelled_item_is_skipped_witness :
  Engine.decide Example.lenient (Example.pr42 ["sdk"] [])
  = Engine.Skip "already labeled"
  /\ Engine.decide Example.lenient (Example.pr42 [] [])
     = Engine.LabelAndComment "documentation" "Thank you for your contribution!"
  /\ Engine.decide Example.lenient
       (Example.pr42 ["documentation"] [Example.review])
     = Engine.Skip "already labeled".
Proof.
  split; [|split; [reflexivity|]].
  - refine (proj1 (proj1 (labelled_item_is_skipped
                            Example.lenient (Example.pr42 ["sdk"] [])) _)).
    exists "sdk". split; [now left | right; now left].
  - refine (proj2 (proj2 (proj2 (labelled_item_is_skipped Example.lenient
                                   (Example.pr42 ["documentation"] [Example.review]))
                            (Example.pr42 [] []) "documentation" eq_refl)) _).
    now left.
Defined.

(** C4. When some comment of the item has an author other than the author
    of the item and a body without the bot marker, the engine emits Skip,
    and so posts no comment, whatever the evaluators find missing.  The
    detector answers true exactly when such a comment is among the comments:
    it answers false on an empty list, and true once a comment of the list
    counts, whatever comes after it. *)
Theorem human_involvement_is_deferred_to (cfg : Engine.Setup) (item : PullRequest) :
  ((exists c, In c (pr_comments item)
              /\ comment_author_login c <> pr_author_login item
              /\ PyStr.contains BOT_MARKER (comment_body c) = false) ->
   Engine.involved item = true
   /\ (exists reason, Engine.decide cfg item = Engine.Skip reason)
   /\ Engine.comment_of (Engine.decide cfg item) = None
   /\ (Engine.already_labeled cfg item = false ->
       Engine.closed item = false ->
       Engine.decide cfg item = Engine.Skip "human involved"))
  /\ (Engine.involved item = true
      <-> exists c, In c (pr_comments item)
                    /\ comment_author_login c <> pr_author_login item
                    /\ PyStr.contains BOT_MARKER (comment_body c) = false)
  /\ (pr_comments item = [] -> Engine.involved item = false)
  /\ (forall before c after,
        Engine.from_human (pr_author_login item) c = true ->
        Engine.scan (pr_author_login item) (before ++ c :: after) = true).
Proof.
  split; [|split; [apply involved_iff|split]].
  - intros Hhuman. apply involved_iff in Hhuman.
    split; [assumption|].
    destruct (involved_skip cfg item Hhuman) as [reason Hskip].
    split; [now exists reason|]. split; [now rewrite Hskip|].
    intros Hunlabelled Hopen.
    now rewrite decide_unfold, Hunlabelled, Hopen, Hhuman.
  - intros Hnone. unfold Engine.involved. now rewrite Hnone.
  - intros before c after. apply scan_first.
Qed.

Lemma human_involvement_is_deferred_to_witness :
  Engine.decide (Example.strict ["Category"]) (Example.pr42 [] [Example.review])
  = Engine.Skip "human involved"
  /\ Engine.decide (Example.strict ["Category"]) (Example.pr42 [] [])
     = Engine.CommentOnly "Please fill in: Category".
Proof.
  split; [|reflexivity].
  refine (proj2 (proj2 (proj2 (proj1 (human_involvement_is_deferred_to
                                        (Example.strict ["Category"])
                                        (Example.pr42 [] [Example.review])) _)))
            eq_refl eq_refl).
  exists Example.review. split; [now left|]. split; [discriminate | reflexivity].
Defined.




(** ** Fetching a pull request *)

Lemma lookup_store_same (key : string) (v : value) (entries : list (string * value)) :
  Py.lookup key (Py.store key v entries) = Some v.
Proof.
  induction entries as [|[k w] rest IH]; simpl.
  - now rewrite String.eqb_refl.
  - destruct (String.eqb k key) eqn:Hk; simpl; now rewrite Hk.
Qed.

Lemma lookup_store_other (key other : string) (v : value)
    (entries : list (string * value)) :
  other <> key ->
  Py.lookup other (Py.store key v entries) = Py.lookup other entries.
Proof.
  intros Hother. induction entries as [|[k w] rest IH]; simpl.
  - destruct (String.eqb_spec key other); [congruence | reflexivity].
  - destruct (String.eqb_spec k key) as [->|Hk]; simpl.
    + destruct (String.eqb_spec key other); [congruence | reflexivity].
    + now rewrite IH.
Qed.

Lemma get_found (obj : value) (key : string) (default v : value) :
  Py.get obj key default = Return v ->
  field key obj = Some v \/ (field key obj = None /\ v = default).
Proof.
  destruct obj; simpl; try discriminate.
  destruct (Py.lookup key entries); intros [= <-]; [now left | now right].
Qed.

Lemma getitem_found (obj : value) (key : string) (v : value) :
  Py.getitem obj key = Return v -> field key obj = Some v.
Proof.
  destruct obj; simpl; try discriminate.
  destruct (Py.lookup key entries); [now intros [= <-] | discriminate].
Qed.

Lemma filter_commits_spec (nodes kept : list value) :
  filter_commits nodes = Return kept ->
  kept = filter (fun node => negb (is_main_merge node)) nodes
  /\ Forall (fun node => exists message, commit_message node = Some message) nodes.
Proof.
  revert kept.
  induction nodes as [|node rest IH]; cbn [filter_commits filter]; intros kept Hrun.
  - injection Hrun as <-. now split.
  - unfold obind in Hrun.
    destruct (Py.getitem node "commit") as [commit|] eqn:Hcommit; [|discriminate].
    destruct (Py.getitem commit "message") as [message|] eqn:Hmessage;
      [|discriminate].
    destruct message as [| | | |text| |]; try discriminate.
    cbn [Py.startswith] in Hrun.
    destruct (filter_commits rest) as [kept'|]; [|discriminate].
    destruct (IH kept' eq_refl) as [-> Hrest].
    assert (Hnode : commit_message node = Some text).
    { unfold commit_message.
      now rewrite (getitem_found _ _ _ Hcommit), (getitem_found _ _ _ Hmessage). }
    split.
    + unfold is_main_merge at 1. rewrite Hnode.
      now injection Hrun as <-.
    + constructor; [now exists text | assumption].
Qed.

Lemma filter_commits_list (original : value) (nodes kept : list value) :
  Py.iter original = Return nodes ->
  filter_commits nodes = Return kept ->
  Py.truthy original = true ->
  original = VList nodes.
Proof.
  destruct original as [| | | |s|items|entries]; simpl; try discriminate.
  - intros [= <-]. destruct s as [|c s]; [discriminate|]. discriminate.
  - now intros [= <-].
  - intros [= <-]. destruct entries as [|[k v] rest]; [discriminate|]. discriminate.
Qed.

(** The exceptions of the operations on values are never transport errors. *)
Ltac not_transport :=
  repeat match goal with
         | |- forall _, _ => intro
         | Hrun : Raise _ = Raise _ |- _ => injection Hrun as <-
         | Hrun : Return _ = Raise _ |- _ => discriminate Hrun
         | Hrun : context [match ?x with _ => _ end] |- _ => destruct x
         end;
  try reflexivity.

Lemma get_raises (obj : value) (key : string) (default : value) (e : exn) :
  Py.get obj key default = Raise e -> is_request_exception e = false.
Proof. unfold Py.get. not_transport. Qed.

Lemma getitem_raises (obj : value) (key : string) (e : exn) :
  Py.getitem obj key = Raise e -> is_request_exception e = false.
Proof. unfold Py.getitem. not_transport. Qed.

Lemma setitem_raises (obj : value) (key : string) (v : value) (e : exn) :
  Py.setitem obj key v = Raise e -> is_request_exception e = false.
Proof. unfold Py.setitem. not_transport. Qed.

Lemma str_in_raises (key : string) (obj : value) (e : exn) :
  Py.str_in key obj = Raise e -> is_request_exception e = false.
Proof. unfold Py.str_in. not_transport. Qed.

Lemma iter_raises (obj : value) (e : exn) :
  Py.iter obj = Raise e -> is_request_exception e = false.
Proof. unfold Py.iter. not_transport. Qed.

Lemma startswith_raises (obj : value) (prefix : string) (e : exn) :
  Py.startswith obj prefix = Raise e -> is_request_exception e = false.
Proof. unfold Py.startswith. not_transport. Qed.

Lemma filter_commits_raises (nodes : list value) (e : exn) :
  filter_commits nodes = Raise e -> is_request_exception e = false.
Proof.
  induction nodes as [|node rest IH]; simpl; [discriminate|].
  unfold obind.
  destruct (Py.getitem node "commit") as [commit|] eqn:Hcommit;
    [|intros [= <-]; eapply getitem_raises; eassumption].
  destruct (Py.getitem commit "message") as [message|] eqn:Hmessage;
    [|intros [= <-]; eapply getitem_raises; eassumption].
  destruct (Py.startswith message MAIN_MERGE_PREFIX) eqn:Hstarts;
    [|intros [= <-]; eapply startswith_raises; eassumption].
  destruct (filter_commits rest); [discriminate|].
  intros [= <-]. now apply IH.
Qed.

Section FetchFacts.
Context `{Settings} `{Utils} `{Runtime}.

Lemma details_unfold (pr_number : Z) (w : World) :
  get_pull_request_details pr_number w
  = let w1 := mkWorld (stdout w ++ [details_line pr_number])
                (requests w ++ [GraphQL PR_QUERY (details_variables pr_number)]) in
    match graphql_reply (requests w) PR_QUERY (details_variables pr_number) with
    | Raise e => reported e w1
    | Return response =>
        match prepared pr_number response with
        | Raise e => reported e w1
        | Return (inl early) => (Return early, w1)
        | Return (inr pr) =>
            let w2 := mkWorld (stdout w1)
                        (requests w1 ++ [GetDiff (details_url pr_number)]) in
            match diff_reply (requests w1) (details_url pr_number) with
            | Raise e => reported e w2
            | Return diff =>
                match Py.setitem pr "diff" (VStr (PyStr.take DIFF_LIMIT diff)) with
                | Raise e => reported e w2
                | Return pr' =>
                    (Return (VDict [("status", VStr "success");
                                    ("pull_request", pr')]), w2)
                end
            end
        end
    end.
Proof.
  unfold get_pull_request_details, try_except, bind, print, run_graphql_query,
    get_diff, lift, ret, reported, prepared, obind.
  fold (details_line pr_number) (details_variables pr_number)
    (details_url pr_number).
  cbn [stdout requests].
  destruct (graphql_reply _ _ _) as [response|e]; [|reflexivity].
  destruct (Py.str_in "errors" response) as [[|]|e]; [| |reflexivity].
  - destruct (Py.getitem response "errors"); reflexivity.
  - destruct (Py.get response "data" _) as [data|e]; [|reflexivity].
    destruct (Py.get data "repository" _) as [repository|e]; [|reflexivity].
    destruct (Py.get repository "pullRequest" _) as [pr|e]; [|reflexivity].
    destruct (negb (Py.truthy pr)); [reflexivity|].
    destruct (Py.get pr "commits" _) as [commits|e]; [|reflexivity].
    destruct (Py.get commits "nodes" _) as [original|e]; [|reflexivity].
    destruct (Py.truthy original).
    + destruct (Py.iter original) as [nodes|e]; [|reflexivity].
      destruct (filter_commits nodes) as [filtered|e]; [|reflexivity].
      destruct (Py.getitem pr "commits") as [held|e]; [|reflexivity].
      destruct (Py.setitem held "nodes" _) as [held'|e]; [|reflexivity].
      destruct (Py.setitem pr "commits" held') as [pr1|e]; [|reflexivity].
      destruct (diff_reply _ _) as [diff|e]; [|reflexivity].
      destruct (Py.setitem pr1 "diff" _); reflexivity.
    + destruct (diff_reply _ _) as [diff|e]; [|reflexivity].
      destruct (Py.setitem pr "diff" _); reflexivity.
Qed.

Ltac raised_by lemma := intros [= <-]; eapply lemma; eassumption.

Lemma prepared_raises (pr_number : Z) (response : value) (e : exn) :
  prepared pr_number response = Raise e -> is_request_exception e = false.
Proof.
  unfold prepared, obind.
  destruct (Py.str_in "errors" response) as [[|]|] eqn:Herrors;
    [| |raised_by str_in_raises].
  - destruct (Py.getitem response "errors") eqn:Hitem;
      [discriminate | raised_by getitem_raises].
  - destruct (Py.get response "data" _) as [data|] eqn:Hdata;
      [|raised_by get_raises].
    destruct (Py.get data "repository" _) as [repository|] eqn:Hrepository;
      [|raised_by get_raises].
    destruct (Py.get repository "pullRequest" _) as [pr|] eqn:Hpr;
      [|raised_by get_raises].
    destruct (negb (Py.truthy pr)); [discriminate|].
    destruct (Py.get pr "commits" _) as [commits|] eqn:Hcommits;
      [|raised_by get_raises].
    destruct (Py.get commits "nodes" _) as [original|] eqn:Hnodes;
      [|raised_by get_raises].
    destruct (Py.truthy original); [|discriminate].
    destruct (Py.iter original) as [nodes|] eqn:Hiter; [|raised_by iter_raises].
    destruct (filter_commits nodes) as [filtered|] eqn:Hfilter;
      [|raised_by filter_commits_raises].
    destruct (Py.getitem pr "commits") as [held|] eqn:Hheld;
      [|raised_by getitem_raises].
    destruct (Py.setitem held "nodes" _) as [held'|] eqn:Hset;
      [|raised_by setitem_raises].
    destruct (Py.setitem pr "commits" held') eqn:Hstore;
      [discriminate | raised_by setitem_raises].
Qed.

Lemma prepared_early (pr_number : Z) (response early : value) :
  prepared pr_number response = Return (inl early) ->
  exists message, early = error_response message.
Proof.
  unfold prepared, obind.
  destruct (Py.str_in "errors" response) as [[|]|]; [| |discriminate].
  - destruct (Py.getitem response "errors") as [errors|]; [|discriminate].
    intros [= <-]. now eexists.
  - destruct (Py.get response "data" _) as [data|]; [|discriminate].
    destruct (Py.get data "repository" _) as [repository|]; [|discriminate].
    destruct (Py.get repository "pullRequest" _) as [pr|]; [|discriminate].
    destruct (negb (Py.truthy pr)); [intros [= <-]; now eexists|].
    destruct (Py.get pr "commits" _) as [commits|]; [|discriminate].
    destruct (Py.get commits "nodes" _) as [original|]; [|discriminate].
    destruct (Py.truthy original).
    + destruct (Py.iter original) as [nodes|]; [|discriminate].
      destruct (filter_commits nodes) as [filtered|]; [|discriminate].
      destruct (Py.getitem pr "commits") as [held|]; [|discriminate].
      destruct (Py.setitem held "nodes" _) as [held'|]; [|discriminate].
      destruct (Py.setitem pr "commits" held'); discriminate.
    + discriminate.
Qed.

Lemma fetched_chain (response data repository pr : value) :
  Py.get response "data" (VDict []) = Return data ->
  Py.get data "repository" (VDict []) = Return repository ->
  Py.get repository "pullRequest" VNone = Return pr ->
  Py.truthy pr = true ->
  fetched_pull_request response = Some pr.
Proof.
  intros Hdata Hrepository Hpr Htruthy.
  apply get_found in Hpr as [Hpr|[_ ->]]; [|discriminate].
  apply get_found in Hrepository as [Hrepository|[_ ->]]; [|discriminate].
  apply get_found in Hdata as [Hdata|[_ ->]]; [|discriminate].
  unfold fetched_pull_request. now rewrite Hdata, Hrepository.
Qed.

Lemma no_commit_nodes (pr commits original : value) :
  Py.get pr "commits" (VDict []) = Return commits ->
  Py.get commits "nodes" (VDict []) = Return original ->
  Py.truthy original = false ->
  commit_nodes pr = [].
Proof.
  intros Hcommits Hnodes Hfalsy. unfold commit_nodes.
  apply get_found in Hcommits as [->|[-> _]]; [|reflexivity].
  apply get_found in Hnodes as [->|[-> _]]; [|reflexivity].
  destruct original as [| | | | |[|x items]|]; try reflexivity.
  discriminate.
Qed.

Lemma prepared_pull_request (pr_number : Z) (response pr : value) :
  prepared pr_number response = Return (inr pr) ->
  exists fetched entries,
    fetched_pull_request response = Some fetched
    /\ pr = VDict entries
    /\ commit_nodes pr
       = filter (fun node => negb (is_main_merge node)) (commit_nodes fetched)
    /\ Forall (fun node => exists message, commit_message node = Some message)
         (commit_nodes fetched).
Proof.
  unfold prepared, obind.
  destruct (Py.str_in "errors" response) as [[|]|]; [| |discriminate].
  { destruct (Py.getitem response "errors"); discriminate. }
  destruct (Py.get response "data" _) as [data|] eqn:Hdata; [|discriminate].
  destruct (Py.get data "repository" _) as [repository|] eqn:Hrepository;
    [|discriminate].
  destruct (Py.get repository "pullRequest" _) as [fetched|] eqn:Hpr;
    [|discriminate].
  destruct (Py.truthy fetched) eqn:Htruthy; [|discriminate]. cbn [negb].
  assert (Hfetched := fetched_chain _ _ _ _ Hdata Hrepository Hpr Htruthy).
  destruct (Py.get fetched "commits" _) as [commits|] eqn:Hcommits; [|discriminate].
  destruct (Py.get commits "nodes" _) as [original|] eqn:Hnodes; [|discriminate].
  destruct fetched as [| | | | | |entries]; try discriminate.
  destruct (Py.truthy original) eqn:Hsome.
  - destruct (Py.iter original) as [nodes|] eqn:Hiter; [|discriminate].
    destruct (filter_commits nodes) as [filtered|] eqn:Hfilter; [|discriminate].
    destruct (Py.getitem (VDict entries) "commits") as [held|] eqn:Hheld;
      [|discriminate].
    destruct held as [| | | | | |held_entries]; try discriminate.
    cbn [Py.setitem]. intros [= <-].
    exists (VDict entries). eexists. split; [assumption|]. split; [reflexivity|].
    assert (Horiginal := filter_commits_list _ _ _ Hiter Hfilter Hsome).
    subst original.
    assert (Hbefore : commit_nodes (VDict entries) = nodes).
    { unfold commit_nodes. rewrite (getitem_found _ _ _ Hheld).
      apply get_found in Hcommits as [Hcommits|[_ ->]].
      - rewrite (getitem_found _ _ _ Hheld) in Hcommits.
        injection Hcommits as <-.
        apply get_found in Hnodes as [->|[_ Hempty]];
          [reflexivity | discriminate Hempty].
      - discriminate Hnodes. }
    rewrite Hbefore.
    destruct (filter_commits_spec _ _ Hfilter) as [-> Hmessages].
    split; [|assumption].
    unfold commit_nodes, field. now rewrite !lookup_store_same.
  - intros [= <-].
    exists (VDict entries), entries. split; [assumption|]. split; [reflexivity|].
    rewrite (no_commit_nodes _ _ _ Hcommits Hnodes Hsome). now split.
Qed.

Lemma details_success (pr_number : Z) (w : World) (result : value) :
  error_results_are_errors ->
  fst (get_pull_request_details pr_number w) = Return result ->
  status_of result = Some (VStr "success") ->
  exists response entries diff,
    graphql_reply (requests w) PR_QUERY (details_variables pr_number)
    = Return response
    /\ prepared pr_number response = Return (inr (VDict entries))
    /\ diff_reply (requests w ++ [GraphQL PR_QUERY (details_variables pr_number)])
         (details_url pr_number) = Return diff
    /\ result
       = VDict [("status", VStr "success");
                ("pull_request",
                 VDict (Py.store "diff" (VStr (PyStr.take DIFF_LIMIT diff))
                          entries))].
Proof.
  intros Herrors Hrun Hstatus. rewrite details_unfold in Hrun.
  cbv zeta in Hrun. cbn [stdout requests] in Hrun.
  assert (Hreported : forall e w',
             fst (reported e w') = Return result -> False).
  { intros e w'. unfold reported.
    destruct (is_request_exception e); [|discriminate].
    intros [= <-]. exact (Herrors _ Hstatus). }
  destruct (graphql_reply _ _ _) as [response|e]; [|now apply Hreported in Hrun].
  destruct (prepared pr_number response) as [[early|pr]|e] eqn:Hprepared;
    [| |now apply Hreported in Hrun].
  - destruct (prepared_early _ _ _ Hprepared) as [message ->].
    injection Hrun as <-. now apply Herrors in Hstatus.
  - destruct (prepared_pull_request _ _ _ Hprepared) as (_ & entries & _ & -> & _).
    destruct (diff_reply _ _) as [diff|e]; [|now apply Hreported in Hrun].
    cbn [Py.setitem fst] in Hrun. injection Hrun as <-.
    now exists response, entries, diff.
Qed.

End FetchFacts.

Lemma commit_nodes_store_diff (diff : value) (entries : list (string * value)) :
  commit_nodes (VDict (Py.store "diff" diff entries)) = commit_nodes (VDict entries).
Proof.
  unfold commit_nodes, field.
  now rewrite lookup_store_other by discriminate.
Qed.

(** C8. When [get_pull_request_details] returns a result with the success
    status, the "diff" entry of its pull request is the diff the platform
    sent cut to its first 10000 characters: a prefix of that text whose
    length is the smaller of 10000 and the length of the text. *)
Theorem fetched_diff_is_truncated `{Settings} `{Utils} `{Runtime}
    (pr_number : Z) (w : World) (result : value) :
  error_results_are_errors ->
  fst (get_pull_request_details pr_number w) = Return result ->
  status_of result = Some (VStr "success") ->
  exists pr diff,
    pull_request_of result = Some pr
    /\ diff_reply (requests w ++ [GraphQL PR_QUERY (details_variables pr_number)])
         (details_url pr_number) = Return diff
    /\ field "diff" pr = Some (VStr (PyStr.take DIFF_LIMIT diff))
    /\ String.length (PyStr.take DIFF_LIMIT diff)
       = Nat.min DIFF_LIMIT (String.length diff)
    /\ (Z.of_nat (String.length (PyStr.take DIFF_LIMIT diff)) <= 10000)%Z
    /\ exists rest, diff = (PyStr.take DIFF_LIMIT diff ++ rest)%string.
Proof.
  intros Herrors Hrun Hstatus.
  destruct (details_success _ _ _ Herrors Hrun Hstatus)
    as (response & entries & diff & _ & _ & Hdiff & ->).
  eexists. exists diff. split; [reflexivity|]. split; [assumption|].
  split; [apply lookup_store_same|].
  assert (Hlength := take_length DIFF_LIMIT diff).
  split; [assumption|]. split; [|apply take_is_prefix].
  rewrite Hlength. unfold DIFF_LIMIT. lia.
Qed.

Lemma fetched_diff_is_truncated_witness :
  exists result pr,
    fst (@get_pull_request_details
           Example.settings Example.utils_online Example.runtime 42 Example.fresh)
    = Return result
    /\ pull_request_of result = Some pr
    /\ field "diff" pr = Some (VStr "diff --git a/README.md b/README.md").
Proof.
  assert (Herrors : @error_results_are_errors Example.utils_online)
    by (intros message Hstatus; discriminate Hstatus).
  destruct (@fetched_diff_is_truncated
              Example.settings Example.utils_online Example.runtime
              42 Example.fresh _ Herrors eq_refl eq_refl)
    as (pr & diff & Hpr & Hreply & Hfield & _).
  eexists. exists pr. split; [reflexivity|]. split; [exact Hpr|].
  injection Hreply as <-. exact Hfield.
Defined.

(** C9. When [get_pull_request_details] returns a result with the success
    status, the commit nodes of its pull request are the commit nodes the
    platform sent, in their order, without those whose commit message starts
    with "Merge branch 'main' into"; every node sent has a message, and no
    node kept has one that starts so. *)
Theorem main_merge_commits_are_removed `{Settings} `{Utils} `{Runtime}
    (pr_number : Z) (w : World) (result : value) :
  error_results_are_errors ->
  fst (get_pull_request_details pr_number w) = Return result ->
  status_of result = Some (VStr "success") ->
  exists response fetched pr,
    graphql_reply (requests w) PR_QUERY (details_variables pr_number)
    = Return response
    /\ fetched_pull_request response = Some fetched
    /\ pull_request_of result = Some pr
    /\ commit_nodes pr
       = filter (fun node => negb (is_main_merge node)) (commit_nodes fetched)
    /\ Forall (fun node => exists message, commit_message node = Some message)
         (commit_nodes fetched)
    /\ Forall (fun node =>
                 exists message,
                   commit_message node = Some message
                   /\ PyStr.startswith MAIN_MERGE_PREFIX message = false)
         (commit_nodes pr).
Proof.
  intros Herrors Hrun Hstatus.
  destruct (details_success _ _ _ Herrors Hrun Hstatus)
    as (response & entries & diff & Hreply & Hprepared & _ & ->).
  destruct (prepared_pull_request _ _ _ Hprepared)
    as (fetched & entries' & Hfetched & _ & Hkept & Hmessages).
  exists response, fetched. eexists.
  split; [assumption|]. split; [assumption|]. split; [reflexivity|].
  rewrite commit_nodes_store_diff, Hkept.
  split; [reflexivity|]. split; [assumption|].
  apply Forall_forall. intros node Hnode.
  apply filter_In in Hnode as [Hsent Hkeep].
  destruct (proj1 (Forall_forall _ _) Hmessages node Hsent) as [message Hmessage].
  exists message. split; [assumption|].
  unfold is_main_merge in Hkeep. rewrite Hmessage in Hkeep.
  now apply negb_true_iff in Hkeep.
Qed.

Lemma main_merge_commits_are_removed_witness :
  exists result pr,
    fst (@get_pull_request_details
           Example.settings Example.utils_online Example.runtime 42 Example.fresh)
    = Return result
    /\ pull_request_of result = Some pr
    /\ commit_nodes Example.fetched_pr = [Example.merge_node; Example.fix_node]
    /\ commit_nodes pr = [Example.fix_node].
Proof.
  assert (Herrors : @error_results_are_errors Example.utils_online)
    by (intros message Hstatus; discriminate Hstatus).
  destruct (@main_merge_commits_are_removed
              Example.settings Example.utils_online Example.runtime
              42 Example.fresh _ Herrors eq_refl eq_refl)
    as (response & fetched & pr & Hreply & Hfetched & Hpr & Hkept & _).
  eexists. exists pr. split; [reflexivity|]. split; [exact Hpr|].
  split; [reflexivity|].
  injection Hreply as <-. injection Hfetched as <-. exact Hkept.
Defined.

(** ** Transport errors *)

Section TransportFacts.
Context `{Settings} `{Utils} `{Runtime} `{Globals}.

Lemma details_query_fails (pr_number : Z) (w : World) (e : exn) :
  graphql_reply (requests w) PR_QUERY (details_variables pr_number) = Raise e ->
  is_request_exception e = true ->
  fst (get_pull_request_details pr_number w) = Return (error_response (exn_str e)).
Proof.
  intros Hreply Hclass. rewrite details_unfold. cbv zeta.
  rewrite Hreply. unfold reported. now rewrite Hclass.
Qed.

Lemma details_diff_fails (pr_number : Z) (w : World) (e : exn) :
  requests (snd (get_pull_request_details pr_number w))
  = (requests w ++ [GraphQL PR_QUERY (details_variables pr_number);
                    GetDiff (details_url pr_number)])%list ->
  diff_reply (requests w ++ [GraphQL PR_QUERY (details_variables pr_number)])
    (details_url pr_number) = Raise e ->
  is_request_exception e = true ->
  fst (get_pull_request_details pr_number w) = Return (error_response (exn_str e)).
Proof.
  intros Hsent Hreply Hclass. rewrite details_unfold in *. cbv zeta in *.
  cbn [stdout requests] in *.
  assert (Hone : forall (A : Type) (r : outcome A * World),
             requests (snd r)
             = (requests w ++ [GraphQL PR_QUERY (details_variables pr_number)])%list ->
             requests (snd r)
             = (requests w ++ [GraphQL PR_QUERY (details_variables pr_number);
                               GetDiff (details_url pr_number)])%list ->
             False).
  { intros A r -> Hboth. apply app_inv_head in Hboth. discriminate Hboth. }
  assert (Hreported : forall e' w', snd (reported e' w') = w').
  { intros e' w'. unfold reported. now destruct (is_request_exception e'). }
  destruct (graphql_reply _ _ _) as [response|e0].
  - destruct (prepared pr_number response) as [[early|pr]|e0].
    + exfalso. eapply Hone; [|exact Hsent]. reflexivity.
    + rewrite Hreply. unfold reported. now rewrite Hclass.
    + exfalso. eapply Hone; [|exact Hsent]. now rewrite Hreported.
  - exfalso. eapply Hone; [|exact Hsent]. now rewrite Hreported.
Qed.

Lemma details_never_raises_transport (pr_number : Z) (w : World) (e : exn) :
  fst (get_pull_request_details pr_number w) = Raise e ->
  is_request_exception e = false.
Proof.
  rewrite details_unfold. cbv zeta.
  assert (Hreported : forall e' w',
             fst (reported e' w') = Raise e -> is_request_exception e = false).
  { intros e' w'. unfold reported.
    destruct (is_request_exception e') eqn:Hclass; [discriminate|].
    now intros [= <-]. }
  destruct (graphql_reply _ _ _) as [response|e0]; [|apply Hreported].
  destruct (prepared pr_number response) as [[early|pr]|e0] eqn:Hprepared;
    [discriminate| |apply Hreported].
  destruct (diff_reply _ _) as [diff|e0]; [|apply Hreported].
  destruct (Py.setitem pr "diff" _) as [pr'|e0]; [discriminate | apply Hreported].
Qed.

Lemma add_label_post_fails (pr_number : Z) (label : string) (w : World) (e : exn) :
  Py.str_in label ALLOWED_LABELS = Return true ->
  post_reply (requests w) (label_url pr_number) (VList [VStr label]) = Raise e ->
  is_request_exception e = true ->
  fst (add_label_to_pr pr_number label w)
  = Return (error_response ("Error: " ++ exn_str e)).
Proof.
  intros Hallowed Hreply Hclass.
  unfold add_label_to_pr, try_except, bind, print, post_request, lift, ret.
  fold (label_url pr_number). cbn [stdout requests].
  rewrite Hallowed. cbn [negb stdout requests]. now rewrite Hreply, Hclass.
Qed.

Lemma add_label_never_raises_transport (pr_number : Z) (label : string)
    (w : World) (e : exn) :
  fst (add_label_to_pr pr_number label w) = Raise e ->
  is_request_exception e = false.
Proof.
  unfold add_label_to_pr, try_except, bind, print, post_request, lift, ret.
  cbn [stdout requests].
  destruct (Py.str_in label ALLOWED_LABELS) as [[|]|e0] eqn:Hallowed; cbn [negb fst].
  - destruct (post_reply _ _ _) as [response|e0]; [discriminate|].
    destruct (is_request_exception e0) eqn:Hclass; [discriminate|].
    now intros [= <-].
  - discriminate.
  - intros [= <-]. eapply str_in_raises; eassumption.
Qed.

Lemma add_comment_post_fails (pr_number : Z) (comment : string) (w : World)
    (e : exn) :
  post_reply (requests w) (comment_url pr_number) (VDict [("body", VStr comment)])
  = Raise e ->
  is_request_exception e = true ->
  fst (add_comment_to_pr pr_number comment w)
  = Return (error_response ("Error: " ++ exn_str e)).
Proof.
  intros Hreply Hclass.
  unfold add_comment_to_pr, try_except, bind, print, post_request, lift, ret.
  fold (comment_url pr_number). cbn [stdout requests].
  now rewrite Hreply, Hclass.
Qed.

Lemma add_comment_never_raises_transport (pr_number : Z) (comment : string)
    (w : World) (e : exn) :
  fst (add_comment_to_pr pr_number comment w) = Raise e ->
  is_request_exception e = false.
Proof.
  unfold add_comment_to_pr, try_except, bind, print, post_request, lift, ret.
  cbn [stdout requests].
  destruct (post_reply _ _ _) as [response|e0]; [discriminate|].
  destruct (is_request_exception e0) eqn:Hclass; [discriminate|].
  now intros [= <-].
Qed.

End TransportFacts.

(** C7. When a request of one of the three tools is answered by a transport
    error, be it the query or the diff read of [get_pull_request_details] or
    the post of [add_label_to_pr] and of [add_comment_to_pr], the tool
    returns the error result that carries the text of the error, which has
    no success status; none of the three ever raises a transport error. *)
Theorem transport_errors_are_returned `{Settings} `{Utils} `{Runtime} `{Globals}
    (pr_number : Z) (label comment : string) (w : World) (e : exn) :
  error_results_are_errors ->
  is_request_exception e = true ->
  (graphql_reply (requests w) PR_QUERY (details_variables pr_number) = Raise e ->
   reports (get_pull_request_details pr_number w) (exn_str e))
  /\ (requests (snd (get_pull_request_details pr_number w))
      = (requests w ++ [GraphQL PR_QUERY (details_variables pr_number);
                        GetDiff (details_url pr_number)])%list ->
      diff_reply (requests w ++ [GraphQL PR_QUERY (details_variables pr_number)])
        (details_url pr_number) = Raise e ->
      reports (get_pull_request_details pr_number w) (exn_str e))
  /\ (Py.str_in label ALLOWED_LABELS = Return true ->
      post_reply (requests w) (label_url pr_number) (VList [VStr label]) = Raise e ->
      reports (add_label_to_pr pr_number label w) ("Error: " ++ exn_str e))
  /\ (post_reply (requests w) (comment_url pr_number)
        (VDict [("body", VStr comment)]) = Raise e ->
      reports (add_comment_to_pr pr_number comment w) ("Error: " ++ exn_str e))
  /\ (forall raised,
        fst (get_pull_request_details pr_number w) = Raise raised
        \/ fst (add_label_to_pr pr_number label w) = Raise raised
        \/ fst (add_comment_to_pr pr_number comment w) = Raise raised ->
        is_request_exception raised = false).
Proof.
  intros Herrors Hclass. unfold reports.
  split; [|split; [|split; [|split]]].
  - intros Hreply. split; [now apply details_query_fails | apply Herrors].
  - intros Hsent Hreply. split; [now apply details_diff_fails | apply Herrors].
  - intros Hallowed Hreply.
    split; [now apply add_label_post_fails | apply Herrors].
  - intros Hreply. split; [now apply add_comment_post_fails | apply Herrors].
  - intros raised [Hraise|[Hraise|Hraise]].
    + eapply details_never_raises_transport; eassumption.
    + eapply add_label_never_raises_transport; eassumption.
    + eapply add_comment_never_raises_transport; eassumption.
Qed.

Lemma transport_errors_are_returned_witness :
  fst (@get_pull_request_details
         Example.settings Example.utils_offline Example.runtime 42 Example.fresh)
  = Return (VDict [("status", VStr "error");
                   ("error_message", VStr "Connection refused")])
  /\ fst (@add_label_to_pr
            Example.settings Example.utils_offline Example.globals
            42 "sdk" Example.fresh)
     = Return (VDict [("status", VStr "error");
                      ("error_message", VStr "Error: Connection refused")])
  /\ fst (@add_comment_to_pr
            Example.settings Example.utils_offline 42 "Thanks!" Example.fresh)
     = Return (VDict [("status", VStr "error");
                      ("error_message", VStr "Error: Connection refused")]).
Proof.
  assert (Herrors : @error_results_are_errors Example.utils_offline)
    by (intros message Hstatus; discriminate Hstatus).
  destruct (@transport_errors_are_returned
              Example.settings Example.utils_offline Example.runtime Example.globals
              42 "sdk" "Thanks!" Example.fresh Example.connection_error
              Herrors eq_refl)
    as (Hquery & _ & Hlabel & Hcomment & _).
  split; [exact (proj1 (Hquery eq_refl))|].
  split; [exact (proj1 (Hlabel eq_refl eq_refl))|].
  exact (proj1 (Hcomment eq_refl)).
Defined.

(** * Further properties of the tools *)

(** ** [get_pull_request_details] *)

Section DetailsEffects.
Context `{Settings} `{Utils} `{Runtime}.

Lemma reported_world (e : exn) (w : World) : snd (reported e w) = w.
Proof. unfold reported. now destruct (is_request_exception e). Qed.

Lemma details_world (pr_number : Z) (w : World) :
  let sent := GraphQL PR_QUERY (details_variables pr_number) in
  let w1 := mkWorld (stdout w ++ [details_line pr_number])
              (requests w ++ [sent]) in
  snd (get_pull_request_details pr_number w) = w1
  \/ snd (get_pull_request_details pr_number w)
     = mkWorld (stdout w1) (requests w1 ++ [GetDiff (details_url pr_number)]).
Proof.
  cbv zeta. rewrite details_unfold. cbv zeta. cbn [stdout requests].
  destruct (graphql_reply _ _ _) as [response|e];
    [|left; apply reported_world].
  destruct (prepared pr_number response) as [[early|pr]|e];
    [now left | | left; apply reported_world].
  right.
  destruct (diff_reply _ _) as [diff|e]; [|apply reported_world].
  destruct (Py.setitem pr "diff" _); [reflexivity | apply reported_world].
Qed.

End DetailsEffects.

(** X1. [get_pull_request_details] only reads: it prints its one line, sends
    the query first and at most the diff read after it, and adds no post to
    the requests. *)
Theorem get_pull_request_details_only_reads `{Settings} `{Utils} `{Runtime}
    (pr_number : Z) (w : World) :
  stdout (snd (get_pull_request_details pr_number w))
  = (stdout w ++ [details_line pr_number])%list
  /\ (requests (snd (get_pull_request_details pr_number w))
      = (requests w ++ [GraphQL PR_QUERY (details_variables pr_number)])%list
      \/ requests (snd (get_pull_request_details pr_number w))
         = (requests w ++ [GraphQL PR_QUERY (details_variables pr_number);
                           GetDiff (details_url pr_number)])%list)
  /\ (forall url payload,
        In (Post url payload) (requests (snd (get_pull_request_details pr_number w))) ->
        In (Post url payload) (requests w)).
Proof.
  destruct (details_world pr_number w) as [-> | ->]; cbn [stdout requests].
  - split; [reflexivity|]. split; [now left|].
    intros url payload Hin. apply in_app_or in Hin as [Hin|[Hin|[]]];
      [assumption | discriminate Hin].
  - split; [reflexivity|]. split; [right; now rewrite <- app_assoc|].
    intros url payload Hin.
    apply in_app_or in Hin as [Hin|[Hin|[]]]; [|discriminate Hin].
    apply in_app_or in Hin as [Hin|[Hin|[]]]; [assumption | discriminate Hin].
Qed.

(** X2. When the answer to the query has an "errors" entry,
    [get_pull_request_details] returns the error result made of the text of
    that entry, whatever else the answer holds, and does not read the diff. *)
Theorem get_pull_request_details_reports_errors `{Settings} `{Utils} `{Runtime}
    (pr_number : Z) (w : World) (response errors : value) :
  graphql_reply (requests w) PR_QUERY (details_variables pr_number)
  = Return response ->
  field "errors" response = Some errors ->
  get_pull_request_details pr_number w
  = (Return (error_response (str_value errors)),
     mkWorld (stdout w ++ [details_line pr_number])
       (requests w ++ [GraphQL PR_QUERY (details_variables pr_number)])).
Proof.
  intros Hreply Herrors. rewrite details_unfold. cbv zeta. rewrite Hreply.
  destruct response as [| | | | | |entries]; try discriminate Herrors.
  unfold prepared, obind. cbn [Py.str_in Py.getitem]. cbn [field] in Herrors.
  now rewrite Herrors.
Qed.

Lemma get_pull_request_details_reports_errors_witness :
  @get_pull_request_details Example.settings
    (Scenario.platform Scenario.errors_reply) (Scenario.installed "{}")
    42 Example.fresh
  = (Return (Scenario.error_result "[{'message': 'Could not resolve'}]"),
     mkWorld ["Fetching details for PR #42 from Universal-Commerce-Protocol/ucp"]
       [GraphQL PR_QUERY
          (@details_variables Example.settings 42)]).
Proof.
  exact (@get_pull_request_details_reports_errors Example.settings
           (Scenario.platform Scenario.errors_reply) (Scenario.installed "{}")
           42 Example.fresh Scenario.errors_reply
           (VList [VDict [("message", VStr "Could not resolve")]])
           eq_refl eq_refl).
Defined.

(** X3. When the answer has no "errors" entry and its pull request is null
    (or otherwise false), [get_pull_request_details] returns the error
    result "Pull Request #n not found." and does not read the diff. *)
Theorem get_pull_request_details_not_found `{Settings} `{Utils} `{Runtime}
    (pr_number : Z) (w : World) (response pr : value) :
  graphql_reply (requests w) PR_QUERY (details_variables pr_number)
  = Return response ->
  field "errors" response = None ->
  fetched_pull_request response = Some pr ->
  Py.truthy pr = false ->
  get_pull_request_details pr_number w
  = (Return (error_response
               ("Pull Request #" ++ PyStr.of_int pr_number ++ " not found.")),
     mkWorld (stdout w ++ [details_line pr_number])
       (requests w ++ [GraphQL PR_QUERY (details_variables pr_number)])).
Proof.
  intros Hreply Herrors Hfetched Hfalse.
  rewrite details_unfold. cbv zeta. rewrite Hreply.
  unfold fetched_pull_request in Hfetched.
  destruct response as [| | | | | |entries]; try discriminate Hfetched.
  cbn [field] in Herrors, Hfetched.
  destruct (Py.lookup "data" entries) as [data|] eqn:Hdata;
    [|discriminate Hfetched].
  destruct data as [| | | | | |data_entries]; try discriminate Hfetched.
  cbn [field] in Hfetched.
  destruct (Py.lookup "repository" data_entries) as [repository|] eqn:Hrepository;
    [|discriminate Hfetched].
  destruct repository as [| | | | | |repository_entries];
    try discriminate Hfetched.
  cbn [field] in Hfetched.
  unfold prepared, obind. cbn [Py.str_in Py.get].
  rewrite Herrors, Hdata. cbn [Py.get]. rewrite Hrepository. cbn [Py.get].
  now rewrite Hfetched, Hfalse.
Qed.

Lemma get_pull_request_details_not_found_witness :
  fst (@get_pull_request_details Example.settings
         (Scenario.platform Scenario.null_reply) (Scenario.installed "{}")
         42 Example.fresh)
  = Return (Scenario.error_result "Pull Request #42 not found.").
Proof.
  exact (f_equal fst
           (@get_pull_request_details_not_found Example.settings
              (Scenario.platform Scenario.null_reply) (Scenario.installed "{}")
              42 Example.fresh Scenario.null_reply VNone
              eq_refl eq_refl eq_refl eq_refl)).
Defined.

Lemma message_read (node : value) (message : string) :
  commit_message node = Some message ->
  exists commit,
    Py.getitem node "commit" = Return commit
    /\ Py.getitem commit "message" = Return (VStr message).
Proof.
  unfold commit_message, field.
  destruct node as [| | | | | |entries]; try discriminate.
  destruct (Py.lookup "commit" entries) as [commit|] eqn:Hcommit; [|discriminate].
  destruct commit as [| | | | | |commit_entries]; try discriminate.
  destruct (Py.lookup "message" commit_entries) as [found|] eqn:Hmessage;
    [|discriminate].
  destruct found; try discriminate. intros [= ->].
  exists (VDict commit_entries). cbn [Py.getitem]. now rewrite Hcommit, Hmessage.
Qed.

Lemma filter_commits_wellformed (nodes : list value) :
  Forall (fun node => exists message, commit_message node = Some message) nodes ->
  filter_commits nodes
  = Return (filter (fun node => negb (is_main_merge node)) nodes).
Proof.
  induction 1 as [|node rest [message Hmessage] _ IH];
    cbn [filter_commits filter]; [reflexivity|].
  destruct (message_read _ _ Hmessage) as (commit & -> & Hread).
  unfold obind. rewrite Hread. cbn [Py.startswith]. rewrite IH.
  assert (Hmerge : is_main_merge node = PyStr.startswith MAIN_MERGE_PREFIX message)
    by (unfold is_main_merge; now rewrite Hmessage).
  now rewrite Hmerge.
Qed.

Lemma message_unread (node : value) :
  commit_message node = None ->
  forall rest, exists e,
    filter_commits (node :: rest) = Raise e.
Proof.
  intros Hnone rest. cbn [filter_commits]. unfold obind.
  destruct (Py.getitem node "commit") as [commit|e] eqn:Hcommit;
    [|now exists e].
  destruct (Py.getitem commit "message") as [message|e] eqn:Hmessage;
    [|now exists e].
  unfold commit_message in Hnone.
  rewrite (getitem_found _ _ _ Hcommit), (getitem_found _ _ _ Hmessage) in Hnone.
  destruct message; try (eexists; reflexivity). discriminate Hnone.
Qed.

Lemma filter_commits_unread (nodes : list value) (node : value) :
  In node nodes ->
  commit_message node = None ->
  exists e, filter_commits nodes = Raise e.
Proof.
  intros Hin Hnone. induction nodes as [|head rest IH]; [contradiction|].
  destruct Hin as [->|Hin]; [now apply message_unread|].
  destruct (IH Hin) as [e He]. cbn [filter_commits]. unfold obind.
  destruct (Py.getitem head "commit") as [commit|e0]; [|now exists e0].
  destruct (Py.getitem commit "message") as [message|e0]; [|now exists e0].
  destruct (Py.startswith message MAIN_MERGE_PREFIX) as [merged|e0];
    [|now exists e0].
  rewrite He. now exists e.
Qed.

(** X4. Filtering is stable: when the commit filter of
    [get_pull_request_details] goes through on a list of nodes, it goes
    through on its own result and returns it unchanged. *)
Theorem filter_commits_is_idempotent (nodes kept : list value) :
  filter_commits nodes = Return kept ->
  filter_commits kept = Return kept.
Proof.
  intros Hrun. destruct (filter_commits_spec _ _ Hrun) as [-> Hmessages].
  rewrite filter_commits_wellformed.
  - f_equal. induction nodes as [|node rest IH]; [reflexivity|].
    cbn [filter]. inversion Hmessages as [|? ? _ Hrest]; subst.
    assert (Hstep : filter_commits rest
                    = Return (filter (fun n => negb (is_main_merge n)) rest))
      by now apply filter_commits_wellformed.
    destruct (negb (is_main_merge node)) eqn:Hkeep.
    + cbn [filter]. rewrite Hkeep. f_equal. now apply IH.
    + now apply IH.
  - apply Forall_forall. intros node Hin. apply filter_In in Hin as [Hin _].
    exact (proj1 (Forall_forall _ _) Hmessages node Hin).
Qed.

Lemma filter_commits_is_idempotent_witness :
  filter_commits [Example.fix_node] = Return [Example.fix_node].
Proof.
  exact (filter_commits_is_idempotent
           [Example.merge_node; Example.fix_node] [Example.fix_node] eq_refl).
Defined.

Section DetailsFields.
Context `{Settings} `{Utils} `{Runtime}.

Lemma prepared_keeps_fields (pr_number : Z) (response pr : value) :
  prepared pr_number response = Return (inr pr) ->
  exists fetched,
    fetched_pull_request response = Some fetched
    /\ (forall key, key <> "commits" -> field key pr = field key fetched)
    /\ (forall commits,
          field "commits" fetched = Some commits ->
          exists commits',
            field "commits" pr = Some commits'
            /\ forall key, key <> "nodes" ->
                           field key commits' = field key commits).
Proof.
  unfold prepared, obind.
  destruct (Py.str_in "errors" response) as [[|]|]; [| |discriminate].
  { destruct (Py.getitem response "errors"); discriminate. }
  destruct (Py.get response "data" _) as [data|] eqn:Hdata; [|discriminate].
  destruct (Py.get data "repository" _) as [repository|] eqn:Hrepository;
    [|discriminate].
  destruct (Py.get repository "pullRequest" _) as [fetched|] eqn:Hpr;
    [|discriminate].
  destruct (Py.truthy fetched) eqn:Htruthy; [|discriminate]. cbn [negb].
  assert (Hfetched := fetched_chain _ _ _ _ Hdata Hrepository Hpr Htruthy).
  destruct (Py.get fetched "commits" _) as [commits|] eqn:Hcommits;
    [|discriminate].
  destruct (Py.get commits "nodes" _) as [original|]; [|discriminate].
  destruct fetched as [| | | | | |entries]; try discriminate Hcommits.
  intros Hrun. exists (VDict entries). split; [assumption|].
  destruct (Py.truthy original).
  - destruct (Py.iter original) as [nodes|]; [|discriminate Hrun].
    destruct (filter_commits nodes) as [filtered|]; [|discriminate Hrun].
    destruct (Py.getitem (VDict entries) "commits") as [held|] eqn:Hheld;
      [|discriminate Hrun].
    destruct held as [| | | | | |held_entries]; try discriminate Hrun.
    cbn [Py.setitem] in Hrun. injection Hrun as <-. split.
    + intros key Hkey. cbn [field]. now apply lookup_store_other.
    + intros commits0 Hcommits0.
      rewrite (getitem_found _ _ _ Hheld) in Hcommits0.
      injection Hcommits0 as <-.
      eexists. split; [cbn [field]; apply lookup_store_same|].
      intros key Hkey. cbn [field]. now apply lookup_store_other.
  - injection Hrun as <-. split; [reflexivity|].
    intros commits0 Hcommits0. now exists commits0.
Qed.

End DetailsFields.

(** X5. A successful [get_pull_request_details] hands the pull request on
    as the platform sent it, apart from the commit nodes and the added
    diff: every other entry of the pull request, and every other entry
    under "commits", is unchanged. *)
Theorem get_pull_request_details_keeps_fields `{Settings} `{Utils} `{Runtime}
    (pr_number : Z) (w : World) (result : value) :
  error_results_are_errors ->
  fst (get_pull_request_details pr_number w) = Return result ->
  status_of result = Some (VStr "success") ->
  exists response fetched pr,
    graphql_reply (requests w) PR_QUERY (details_variables pr_number)
    = Return response
    /\ fetched_pull_request response = Some fetched
    /\ pull_request_of result = Some pr
    /\ (forall key, key <> "commits" -> key <> "diff" ->
                    field key pr = field key fetched)
    /\ (forall commits,
          field "commits" fetched = Some commits ->
          exists commits',
            field "commits" pr = Some commits'
            /\ forall key, key <> "nodes" ->
                           field key commits' = field key commits).
Proof.
  intros Herrors Hrun Hstatus.
  destruct (details_success _ _ _ Herrors Hrun Hstatus)
    as (response & entries & diff & Hreply & Hprepared & _ & ->).
  destruct (prepared_keeps_fields _ _ _ Hprepared)
    as (fetched & Hfetched & Hkeys & Hcommits).
  exists response, fetched. eexists.
  split; [assumption|]. split; [assumption|]. split; [reflexivity|]. split.
  - intros key Hkey Hdiff. rewrite <- (Hkeys key Hkey).
    cbn [field]. now apply lookup_store_other.
  - intros commits Hfound.
    destruct (Hcommits commits Hfound) as (commits' & Hheld & Hsame).
    exists commits'. split; [|assumption].
    cbn [field] in *. rewrite lookup_store_other by discriminate. assumption.
Qed.

Lemma get_pull_request_details_keeps_fields_witness :
  exists result pr commits,
    fst (@get_pull_request_details Example.settings
           (Scenario.platform Scenario.full_reply) (Scenario.installed "{}")
           42 Example.fresh) = Return result
    /\ pull_request_of result = Some pr
    /\ field "title" pr = Some (VStr "Update README")
    /\ field "commits" pr = Some commits
    /\ field "totalCount" commits = Some (VInt 2).
Proof.
  assert (Herrors : @error_results_are_errors
                      (Scenario.platform Scenario.full_reply))
    by (intros message Hstatus; discriminate Hstatus).
  destruct (@get_pull_request_details_keeps_fields Example.settings
              (Scenario.platform Scenario.full_reply) (Scenario.installed "{}")
              42 Example.fresh _ Herrors eq_refl eq_refl)
    as (response & fetched & pr & Hreply & Hfetched & Hpr & Hkeys & Hcommits).
  injection Hreply as <-. injection Hfetched as <-.
  destruct (Hcommits _ eq_refl) as (commits' & Hheld & Hsame).
  eexists. exists pr, commits'.
  split; [reflexivity|]. split; [exact Hpr|].
  split; [exact (Hkeys "title" ltac:(discriminate) ltac:(discriminate))|].
  split; [exact Hheld|].
  exact (Hsame "totalCount" ltac:(discriminate)).
Defined.

(** X6. When a commit node sent by the platform has no message that is a
    string (a null node, say), [get_pull_request_details] does not return an
    error result: it raises, with an exception that is not a transport
    error, after the query and before any diff read. *)
Theorem get_pull_request_details_raises_on_bad_node `{Settings} `{Utils} `{Runtime}
    (pr_number : Z) (w : World) (response pr commits node : value)
    (nodes : list value) :
  graphql_reply (requests w) PR_QUERY (details_variables pr_number)
  = Return response ->
  field "errors" response = None ->
  fetched_pull_request response = Some pr ->
  field "commits" pr = Some commits ->
  field "nodes" commits = Some (VList nodes) ->
  In node nodes ->
  commit_message node = None ->
  exists e,
    get_pull_request_details pr_number w
    = (Raise e,
       mkWorld (stdout w ++ [details_line pr_number])
         (requests w ++ [GraphQL PR_QUERY (details_variables pr_number)]))
    /\ is_request_exception e = false.
Proof.
  intros Hreply Herrors Hfetched Hcommits Hnodes Hin Hnone.
  destruct (filter_commits_unread _ _ Hin Hnone) as [e He].
  exists e. split; [|eapply filter_commits_raises; eassumption].
  assert (Hprepared : prepared pr_number response = Raise e).
  { unfold fetched_pull_request in Hfetched.
    destruct response as [| | | | | |entries]; try discriminate Hfetched.
    cbn [field] in Herrors, Hfetched.
    destruct (Py.lookup "data" entries) as [data|] eqn:Hdata;
      [|discriminate Hfetched].
    destruct data as [| | | | | |data_entries]; try discriminate Hfetched.
    cbn [field] in Hfetched.
    destruct (Py.lookup "repository" data_entries) as [repository|]
      eqn:Hrepository; [|discriminate Hfetched].
    destruct repository as [| | | | | |repository_entries];
      try discriminate Hfetched.
    cbn [field] in Hfetched.
    destruct pr as [| | | | | |pr_entries]; try discriminate Hcommits.
    destruct commits as [| | | | | |commits_entries]; try discriminate Hnodes.
    cbn [field] in Hcommits, Hnodes.
    unfold prepared, obind. cbn [Py.str_in Py.get].
    rewrite Herrors, Hdata. cbn [Py.get]. rewrite Hrepository. cbn [Py.get].
    rewrite Hfetched.
    destruct pr_entries as [|entry pr_entries]; [discriminate Hcommits|].
    cbn [Py.truthy negb Py.get]. rewrite Hcommits. cbn [Py.get].
    rewrite Hnodes.
    destruct nodes as [|first others]; [contradiction|].
    cbn [Py.truthy Py.iter]. now rewrite He. }
  rewrite details_unfold. cbv zeta. rewrite Hreply, Hprepared.
  unfold reported. now rewrite (filter_commits_raises _ _ He).
Qed.

Lemma get_pull_request_details_raises_on_bad_node_witness :
  exists e,
    fst (@get_pull_request_details Example.settings
           (Scenario.platform Scenario.broken_reply) (Scenario.installed "{}")
           42 Example.fresh) = Raise e
    /\ exn_class_of e = TypeError.
Proof.
  destruct (@get_pull_request_details_raises_on_bad_node Example.settings
              (Scenario.platform Scenario.broken_reply) (Scenario.installed "{}")
              42 Example.fresh Scenario.broken_reply _ _ VNone _
              eq_refl eq_refl eq_refl eq_refl eq_refl
              (or_intror (or_introl eq_refl)) eq_refl)
    as (e & Hrun & _).
  exists e. split; [now rewrite Hrun|].
  injection Hrun as <-. reflexivity.
Defined.

(** ** [add_label_to_pr] and [add_comment_to_pr] *)

(** X7. A label that is a member of the list [ALLOWED_LABELS] is posted once,
    as the one-element list [[label]], to the issues/labels url of the pull
    request; when the platform answers, the result has the success status,
    the label applied and the answer. *)
Theorem add_label_to_pr_applies_member `{Settings} `{Utils} `{Globals}
    (pr_number : Z) (label : string) (names : list value) (w : World)
    (response : value) :
  ALLOWED_LABELS = VList names ->
  In (VStr label) names ->
  post_reply (requests w) (label_url pr_number) (VList [VStr label])
  = Return response ->
  add_label_to_pr pr_number label w
  = (Return (VDict [("status", VStr "success");
                    ("applied_label", VStr label);
                    ("response", response)]),
     mkWorld (stdout w ++ [attempt_line pr_number label])
       (requests w ++ [Post (label_url pr_number) (VList [VStr label])])).
Proof.
  intros Hlist Hin Hreply.
  unfold add_label_to_pr, try_except, bind, print, post_request, lift, ret.
  fold (label_url pr_number) (attempt_line pr_number label).
  rewrite Hlist, (str_in_list_true _ _ Hin).
  cbn [negb stdout requests]. now rewrite Hreply.
Qed.

Lemma add_label_to_pr_applies_member_witness :
  @add_label_to_pr Example.settings Example.utils_online Example.globals
    42 "sdk" Example.fresh
  = (Return (VDict [("status", VStr "success");
                    ("applied_label", VStr "sdk");
                    ("response", VList [])]),
     mkWorld ["Attempting to add label 'sdk' to PR #42"]
       [Post "https://api.github.com/repos/Universal-Commerce-Protocol/ucp/issues/42/labels"
          (VList [VStr "sdk"])]).
Proof.
  exact (@add_label_to_pr_applies_member
           Example.settings Example.utils_online Example.globals
           42 "sdk" [VStr "documentation"; VStr "sdk"] Example.fresh (VList [])
           eq_refl (or_intror (or_introl eq_refl)) eq_refl).
Defined.

(** X8. When [ALLOWED_LABELS] is not a list, a dict or a string (a config
    with a null or a number under "allowed_labels"), [add_label_to_pr]
    raises a [TypeError] for every label: it returns no error result and
    sends no request. *)
Theorem add_label_to_pr_needs_a_container `{Settings} `{Utils} `{Globals}
    (pr_number : Z) (label : string) (w : World) :
  (forall items, ALLOWED_LABELS <> VList items) ->
  (forall entries, ALLOWED_LABELS <> VDict entries) ->
  (forall s, ALLOWED_LABELS <> VStr s) ->
  exists e,
    add_label_to_pr pr_number label w
    = (Raise e,
       mkWorld (stdout w ++ [attempt_line pr_number label]) (requests w))
    /\ exn_class_of e = TypeError.
Proof.
  intros Hlist Hdict Hstr.
  unfold add_label_to_pr, try_except, bind, print, lift.
  fold (attempt_line pr_number label).
  destruct ALLOWED_LABELS as [| | | |s|items|entries];
    try (eexists; split; reflexivity).
  - now destruct (Hstr s).
  - now destruct (Hlist items).
  - now destruct (Hdict entries).
Qed.

Lemma add_label_to_pr_needs_a_container_witness :
  exists e,
    @add_label_to_pr Example.settings Example.utils_online (Scenario.taxonomy VNone)
      42 "sdk" Example.fresh
    = (Raise e, mkWorld ["Attempting to add label 'sdk' to PR #42"] [])
    /\ exn_class_of e = TypeError.
Proof.
  refine (@add_label_to_pr_needs_a_container
            Example.settings Example.utils_online (Scenario.taxonomy VNone)
            42 "sdk" Example.fresh _ _ _); intros x Hx; discriminate Hx.
Defined.

(** X9. When [ALLOWED_LABELS] is a string instead of a list, membership is
    substring containment: any label that occurs inside the string, the
    empty label among them, is posted. *)
Theorem add_label_to_pr_string_taxonomy `{Settings} `{Utils} `{Globals}
    (pr_number : Z) (label taxonomy : string) (w : World) :
  ALLOWED_LABELS = VStr taxonomy ->
  PyStr.contains label taxonomy = true ->
  requests (snd (add_label_to_pr pr_number label w))
  = (requests w ++ [Post (label_url pr_number) (VList [VStr label])])%list
  /\ PyStr.contains EmptyString taxonomy = true.
Proof.
  intros Hstring Hinside. split.
  - destruct (add_label_to_pr_requests pr_number label w) as [Hnone|[_ Hsent]];
      [|assumption].
    exfalso. revert Hnone.
    unfold add_label_to_pr, try_except, bind, print, post_request, lift, ret.
    rewrite Hstring. cbn [Py.str_in]. rewrite Hinside.
    cbn [negb stdout requests].
    destruct (post_reply _ _ _) as [response|e]; cbn [snd requests].
    + intros Hsame. apply (f_equal (@List.length Request)) in Hsame.
      rewrite length_app in Hsame. cbn [List.length] in Hsame. lia.
    + destruct (is_request_exception e); cbn [snd requests];
        intros Hsame; apply (f_equal (@List.length Request)) in Hsame;
        rewrite length_app in Hsame; cbn [List.length] in Hsame; lia.
  - now destruct taxonomy.
Qed.

Lemma add_label_to_pr_string_taxonomy_witness :
  requests (snd (@add_label_to_pr Example.settings Example.utils_online
                   (Scenario.taxonomy (VStr "documentation"))
                   42 "ment" Example.fresh))
  = [Post "https://api.github.com/repos/Universal-Commerce-Protocol/ucp/issues/42/labels"
       (VList [VStr "ment"])].
Proof.
  exact (proj1 (@add_label_to_pr_string_taxonomy
                  Example.settings Example.utils_online
                  (Scenario.taxonomy (VStr "documentation"))
                  42 "ment" "documentation" Example.fresh eq_refl eq_refl)).
Defined.

(** X10. [add_comment_to_pr] posts every comment it is given, the empty one
    too, exactly once, as the body of one request to the issues/comments
    url; it has no check of its own.  When the platform answers, the result
    has the success status and the comment, and nothing of the answer. *)
Theorem add_comment_to_pr_always_posts `{Settings} `{Utils}
    (pr_number : Z) (comment : string) (w : World) :
  requests (snd (add_comment_to_pr pr_number comment w))
  = (requests w ++ [Post (comment_url pr_number)
                      (VDict [("body", VStr comment)])])%list
  /\ stdout (snd (add_comment_to_pr pr_number comment w))
     = (stdout w ++ [comment_line pr_number comment])%list
  /\ (forall response,
        post_reply (requests w) (comment_url pr_number)
          (VDict [("body", VStr comment)]) = Return response ->
        fst (add_comment_to_pr pr_number comment w)
        = Return (VDict [("status", VStr "success");
                         ("added_comment", VStr comment)])).
Proof.
  unfold add_comment_to_pr, try_except, bind, print, post_request, lift, ret.
  fold (comment_url pr_number) (comment_line pr_number comment).
  cbn [stdout requests].
  destruct (post_reply _ _ _) as [response|e].
  - split; [reflexivity|]. split; [reflexivity|].
    now intros response' [= <-].
  - destruct (is_request_exception e);
      (split; [reflexivity|]; split; [reflexivity|];
       intros response Hreply; discriminate Hreply).
Qed.

Lemma add_comment_to_pr_always_posts_witness :
  @add_comment_to_pr Example.settings Example.utils_online 42 "" Example.fresh
  = (Return (VDict [("status", VStr "success"); ("added_comment", VStr "")]),
     mkWorld ["Attempting to add comment '' to issue #42"]
       [Post "https://api.github.com/repos/Universal-Commerce-Protocol/ucp/issues/42/comments"
          (VDict [("body", VStr "")])]).
Proof.
  destruct (@add_comment_to_pr_always_posts
              Example.settings Example.utils_online 42 "" Example.fresh)
    as (Hsent & Hprinted & Hresult).
  specialize (Hresult (VList []) eq_refl).
  destruct (@add_comment_to_pr Example.settings Example.utils_online
              42 "" Example.fresh) as [result [printed sent]].
  cbn [fst snd stdout requests] in *. now subst.
Defined.

(** ** [get_repo_config] and the start-up texts *)

Section OwnConfig.
Context `{Utils} `{Runtime}.

Lemma load_named_config_read (repo_name guidelines f : string) (w w1 : World) :
  read_file (joinpath (joinpath module_dir "prompts") (repo_name ++ ".txt")) w
  = (Return guidelines, w1) ->
  open_text (joinpath (joinpath module_dir "configs") (repo_name ++ ".json"))
  = Return f ->
  load_named_config repo_name w
  = match json_loads f with
    | Raise e => (Raise e, w1)
    | Return config =>
        match Py.get config "allowed_labels" (VList []) with
        | Raise e => (Raise e, w1)
        | Return labels =>
            (Return (PyStr.replace "{repo_specific_guidelines}" guidelines
                       BASE_PROMPT_TEMPLATE, labels),
             mkWorld (stdout w1 ++ [("Loaded config for repo: " ++ repo_name)%string])
               (requests w1))
        end
    end.
Proof.
  intros Hread Hopen. unfold load_named_config, bind, print, lift, ret.
  rewrite Hread, Hopen.
  destruct (json_loads f) as [config|e]; [|reflexivity].
  now destruct (Py.get config "allowed_labels" _).
Qed.

Lemma get_repo_config_read (repo_name guidelines f : string)
    (entries : list (string * value)) (w w1 : World) :
  read_file (joinpath (joinpath module_dir "prompts") (repo_name ++ ".txt")) w
  = (Return guidelines, w1) ->
  open_text (joinpath (joinpath module_dir "configs") (repo_name ++ ".json"))
  = Return f ->
  json_loads f = Return (VDict entries) ->
  get_repo_config repo_name w
  = (Return (PyStr.replace "{repo_specific_guidelines}" guidelines
               BASE_PROMPT_TEMPLATE,
             match Py.lookup "allowed_labels" entries with
             | Some labels => labels
             | None => VList []
             end),
     mkWorld (stdout w1 ++ [("Loaded config for repo: " ++ repo_name)%string])
       (requests w1)).
Proof.
  intros Hread Hopen Hjson. unfold get_repo_config, try_except.
  rewrite (load_named_config_read _ _ _ _ _ Hread Hopen), Hjson.
  reflexivity.
Qed.

End OwnConfig.

(** X11. When the prompt file and the config file of the repository are
    found and the config decodes to a dict, [get_repo_config] returns the
    template with the repository's own guidelines and the value under
    "allowed_labels" (the empty list when the key is missing), prints
    "Loaded config for repo: <name>" and nothing about a fallback. *)
Theorem get_repo_config_loads_own_files `{Utils} `{Runtime}
    (repo_name guidelines f : string) (entries : list (string * value))
    (w w1 : World) :
  read_file (joinpath (joinpath module_dir "prompts") (repo_name ++ ".txt")) w
  = (Return guidelines, w1) ->
  open_text (joinpath (joinpath module_dir "configs") (repo_name ++ ".json"))
  = Return f ->
  json_loads f = Return (VDict entries) ->
  get_repo_config repo_name w
  = (Return (PyStr.replace "{repo_specific_guidelines}" guidelines
               BASE_PROMPT_TEMPLATE,
             match Py.lookup "allowed_labels" entries with
             | Some labels => labels
             | None => VList []
             end),
     mkWorld (stdout w1 ++ [("Loaded config for repo: " ++ repo_name)%string])
       (requests w1)).
Proof.
  intros Hread Hopen Hjson. now apply get_repo_config_read with (f := f).
Qed.

Lemma get_repo_config_loads_own_files_witness :
  exists prompt,
    @get_repo_config (Scenario.platform VNone) (Scenario.installed "{...}")
      "acme" Example.fresh
    = (Return (prompt, VList [VStr "bug"; VStr "feature"]),
       mkWorld ["Loaded config for repo: acme"] []).
Proof.
  eexists.
  exact (@get_repo_config_loads_own_files
           (Scenario.platform VNone) (Scenario.installed "{...}")
           "acme" "- acme labelling rules" "{...}"
           [("allowed_labels", VList [VStr "bug"; VStr "feature"])]
           Example.fresh Example.fresh eq_refl eq_refl eq_refl).
Defined.

(** X12. Only a file that is not found triggers the fallback.  When the
    files of the repository are found but the config does not decode, or
    decodes to something that is not a dict, [get_repo_config] raises that
    error (an [AttributeError] in the second case) and prints nothing about
    a fallback. *)
Theorem get_repo_config_raises_on_bad_config `{Utils} `{Runtime}
    (repo_name guidelines f : string) (w w1 : World) :
  read_file (joinpath (joinpath module_dir "prompts") (repo_name ++ ".txt")) w
  = (Return guidelines, w1) ->
  open_text (joinpath (joinpath module_dir "configs") (repo_name ++ ".json"))
  = Return f ->
  (forall e, json_loads f = Raise e -> is_file_not_found e = false ->
             get_repo_config repo_name w = (Raise e, w1))
  /\ (forall config, json_loads f = Return config ->
                     (forall entries, config <> VDict entries) ->
                     exists e, get_repo_config repo_name w = (Raise e, w1)
                               /\ exn_class_of e = AttributeError).
Proof.
  intros Hread Hopen. unfold get_repo_config, try_except.
  rewrite (load_named_config_read _ _ _ _ _ Hread Hopen). split.
  - intros e -> Hclass. now rewrite Hclass.
  - intros config -> Hshape.
    destruct config as [| | | | | |entries];
      try (eexists; split; reflexivity).
    now destruct (Hshape entries).
Qed.

Lemma get_repo_config_raises_on_bad_config_witness :
  (exists e,
      @get_repo_config (Scenario.platform VNone) (Scenario.installed "[]")
        "acme" Example.fresh = (Raise e, Example.fresh)
      /\ exn_class_of e = AttributeError)
  /\ @get_repo_config (Scenario.platform VNone) (Scenario.installed "{")
       "acme" Example.fresh
     = (Raise (Exn (OtherException "JSONDecodeError") "Expecting property name"),
        Example.fresh).
Proof.
  split.
  - refine (proj2 (@get_repo_config_raises_on_bad_config
                     (Scenario.platform VNone) (Scenario.installed "[]")
                     "acme" "- acme labelling rules" "[]"
                     Example.fresh Example.fresh eq_refl eq_refl)
              (VList []) eq_refl _).
    intros entries Hentries. discriminate Hentries.
  - exact (proj1 (@get_repo_config_raises_on_bad_config
                    (Scenario.platform VNone) (Scenario.installed "{")
                    "acme" "- acme labelling rules" "{"
                    Example.fresh Example.fresh eq_refl eq_refl)
             _ eq_refl eq_refl).
Defined.

(** X13. A config that is a dict without "allowed_labels" gives the empty
    taxonomy, and with the taxonomy loaded from it [add_label_to_pr] refuses
    every label and sends nothing. *)
Theorem config_without_labels_refuses_every_label `{Settings} `{Utils} `{Runtime}
    (repo_name guidelines f : string) (entries : list (string * value))
    (w w1 : World) :
  read_file (joinpath (joinpath module_dir "prompts") (repo_name ++ ".txt")) w
  = (Return guidelines, w1) ->
  open_text (joinpath (joinpath module_dir "configs") (repo_name ++ ".json"))
  = Return f ->
  json_loads f = Return (VDict entries) ->
  Py.lookup "allowed_labels" entries = None ->
  exists prompt labels w',
    get_repo_config repo_name w = (Return (prompt, labels), w')
    /\ labels = VList []
    /\ forall pr_number label w2,
         @add_label_to_pr _ _ (Build_Globals prompt labels) pr_number label w2
         = (Return (error_response (refusal label)),
            mkWorld (stdout w2 ++ [attempt_line pr_number label]) (requests w2)).
Proof.
  intros Hread Hopen Hjson Hmissing.
  assert (Hrun := get_repo_config_read _ _ _ _ _ _ Hread Hopen Hjson).
  rewrite Hmissing in Hrun.
  eexists. exists (VList []). eexists.
  split; [exact Hrun|]. split; [reflexivity|].
  intros pr_number label w2.
  now apply (@add_label_to_pr_not_in _ _ (Build_Globals _ (VList []))).
Qed.

Lemma config_without_labels_refuses_every_label_witness :
  exists prompt,
    fst (@get_repo_config (Scenario.platform VNone) (Scenario.installed "{}")
           "acme" Example.fresh) = Return (prompt, VList [])
    /\ fst (@add_label_to_pr Example.settings (Scenario.platform VNone)
              (Build_Globals prompt (VList [])) 42 "bug" Example.fresh)
       = Return (Scenario.error_result
                   "Error: Label 'bug' is not an allowed label. Will not apply.").
Proof.
  destruct (@config_without_labels_refuses_every_label
              Example.settings (Scenario.platform VNone) (Scenario.installed "{}")
              "acme" "- acme labelling rules" "{}" []
              Example.fresh Example.fresh eq_refl eq_refl eq_refl eq_refl)
    as (prompt & labels & w' & Hrun & -> & Hrefused).
  exists prompt. split; [now rewrite Hrun|].
  now rewrite (Hrefused 42 "bug" Example.fresh).
Defined.

(** X14. The placeholder for the repository's guidelines occurs once in
    [BASE_PROMPT_TEMPLATE], so the prompt [get_repo_config] builds is the
    text before it, the guidelines as they are, and the text after it: the
    guidelines are not searched again, whatever they hold. *)
Theorem guidelines_are_spliced_in_once :
  exists head tail,
    BASE_PROMPT_TEMPLATE = (head ++ "{repo_specific_guidelines}" ++ tail)%string
    /\ PyStr.contains "{repo_specific_guidelines}" head = false
    /\ PyStr.contains "{repo_specific_guidelines}" tail = false
    /\ forall guidelines,
         PyStr.replace "{repo_specific_guidelines}" guidelines BASE_PROMPT_TEMPLATE
         = (head ++ guidelines ++ tail)%string.
Proof.
  pose (at_ := match String.index 0 "{repo_specific_guidelines}" BASE_PROMPT_TEMPLATE
               with Some k => k | None => O end).
  exists (String.substring 0 at_ BASE_PROMPT_TEMPLATE).
  exists (String.substring (at_ + String.length "{repo_specific_guidelines}")
            (String.length BASE_PROMPT_TEMPLATE) BASE_PROMPT_TEMPLATE).
  split; [vm_compute; reflexivity|].
  split; [vm_compute; reflexivity|].
  split; [vm_compute; reflexivity|].
  intros guidelines. vm_compute. reflexivity.
Qed.

(** X15. A start-up text read from a file has the length of the file, and a
    file without braces is taken over unchanged. *)
Theorem startup_markdown_keeps_plain_text `{Utils} `{Runtime}
    (variable not_found path text : string) (w w' : World) :
  environ_lookup variable environ = Some path ->
  read_file path w = (Return text, w') ->
  exists loaded,
    load_markdown variable not_found w = (Return loaded, w')
    /\ String.length loaded = String.length text
    /\ (no_braces text -> loaded = text).
Proof.
  intros Hset Hread. exists (brackets text).
  split; [now apply load_markdown_read with (path := path)|].
  split; [apply brackets_length | apply brackets_fixes_brace_free].
Qed.

Lemma startup_markdown_keeps_plain_text_witness :
  @CONTRIBUTING_MD (Scenario.platform VNone) (Scenario.installed "{}") Example.fresh
  = (Return "Sign the CLA.", Example.fresh).
Proof.
  destruct (@startup_markdown_keeps_plain_text
              (Scenario.platform VNone) (Scenario.installed "{}")
              "CONTRIBUTING_MD_PATH" "CONTRIBUTING.md not found."
              "/docs/CONTRIBUTING.md" "Sign the CLA." Example.fresh Example.fresh
              eq_refl eq_refl)
    as (loaded & Hrun & _ & Hsame).
  unfold CONTRIBUTING_MD. rewrite Hrun. f_equal. f_equal.
  apply Hsame. split; reflexivity.
Defined.

(** X16. Only a missing file or an unset variable leads to the fixed "not
    found" text.  Any other error of [read_file] (a file that may not be
    read, say) is raised by the start-up block, so loading the module fails. *)
Theorem startup_markdown_raises_other_errors `{Utils} `{Runtime}
    (variable not_found path : string) (e : exn) (w w' : World) :
  environ_lookup variable environ = Some path ->
  read_file path w = (Raise e, w') ->
  is_file_not_found e = false ->
  is_key_error e = false ->
  load_markdown variable not_found w = (Raise e, w').
Proof.
  intros Hset Hread Hfound Hkey.
  rewrite (load_markdown_raise _ _ _ _ _ _ Hset Hread).
  now rewrite Hfound, Hkey.
Qed.

Lemma startup_markdown_raises_other_errors_witness :
  @PULL_REQUEST_TEMPLATE_MD (Scenario.platform VNone) (Scenario.installed "{}")
    Example.fresh
  = (Raise (Exn (OtherException "PermissionError") "Permission denied"),
     Example.fresh).
Proof.
  exact (@startup_markdown_raises_other_errors
           (Scenario.platform VNone) (Scenario.installed "{}")
           "PULL_REQUEST_TEMPLATE_MD_PATH" "pull_request_template.md not found."
           "/docs/secret.md" _ Example.fresh Example.fresh
           eq_refl eq_refl eq_refl eq_refl).
Defined.

(** X17. When the files of the repository are not found and reading the ucp
    prompt or opening the ucp config fails as well, [get_repo_config] raises
    that second error, after its two fallback lines: there is no further
    default. *)
Theorem get_repo_config_fallback_can_fail `{Utils} `{Runtime}
    (repo_name : string) (w w' : World) :
  config_missing repo_name w w' ->
  let announced :=
    mkWorld ((stdout w' ++ [("Error: No prompt or config found for repo: "
                             ++ repo_name)%string])
             ++ ["Falling back to ucp config."]) (requests w') in
  (forall e w'',
      read_file (joinpath (joinpath module_dir "prompts") "ucp.txt") announced
      = (Raise e, w'') ->
      get_repo_config repo_name w = (Raise e, w''))
  /\ (forall guidelines e w'',
        read_file (joinpath (joinpath module_dir "prompts") "ucp.txt") announced
        = (Return guidelines, w'') ->
        open_text (joinpath (joinpath module_dir "configs") "ucp.json") = Raise e ->
        get_repo_config repo_name w = (Raise e, w'')).
Proof.
  intros Hmissing announced.
  destruct (load_named_config_missing _ _ _ Hmissing) as (e0 & Hbody & Hclass).
  rewrite (get_repo_config_handler _ _ _ _ Hbody Hclass).
  unfold load_ucp_config, bind, print, lift. cbn [stdout requests].
  fold announced. split.
  - intros e w'' Hread. now rewrite Hread.
  - intros guidelines e w'' Hread Hopen. now rewrite Hread, Hopen.
Qed.

Lemma get_repo_config_fallback_can_fail_witness :
  @get_repo_config Example.utils_online Example.runtime "acme" Example.fresh
  = (Raise (Example.file_not_found "/agent/prompts/ucp.txt"),
     mkWorld ["Error: No prompt or config found for repo: acme";
              "Falling back to ucp config."] []).
Proof.
  refine (proj1 (@get_repo_config_fallback_can_fail
                   Example.utils_online Example.runtime
                   "acme" Example.fresh Example.fresh _) _ _ eq_refl).
  left. exists (Example.file_not_found "/agent/prompts/acme.txt").
  split; reflexivity.
Defined.

(** ** The instruction of [root_agent] *)

Lemma str_app_assoc (a b c : string) : ((a ++ b) ++ c = a ++ (b ++ c))%string.
Proof. induction a as [|x a IH]; simpl; congruence. Qed.

Lemma str_app_nil_r (a : string) : (a ++ EmptyString)%string = a.
Proof. induction a as [|x a IH]; simpl; congruence. Qed.

Section FormatFacts.
Import PyFormat.
Variable kwargs : list (string * string).

Lemma prepend_nil (r : formatted) : prepend EmptyString r = r.
Proof. now destruct r. Qed.

Lemma prepend_prepend (a b : string) (r : formatted) :
  prepend a (prepend b r) = prepend (a ++ b) r.
Proof. destruct r; simpl; [|reflexivity|reflexivity]. now rewrite str_app_assoc. Qed.

Lemma scan_literal (literal rest : string) :
  no_braces literal ->
  scan kwargs Text (literal ++ rest) = prepend literal (scan kwargs Text rest).
Proof.
  unfold no_braces. induction literal as [|c literal IH]; intros [Hopen Hclose].
  - cbn [append]. now rewrite prepend_nil.
  - cbn [PyStr.has_char] in Hopen, Hclose.
    apply orb_false_elim in Hopen as [Hc1 Hopen].
    apply orb_false_elim in Hclose as [Hc2 Hclose].
    cbn [append scan]. rewrite Hc1, Hc2, IH by now split.
    now rewrite prepend_prepend.
Qed.

Lemma scan_in_field (name read rest : string) :
  plain_name name = true ->
  scan kwargs (InField read) (name ++ "}" ++ rest)
  = finish kwargs (read ++ name) (scan kwargs Text rest).
Proof.
  revert read. induction name as [|c name IH]; intros read Hplain.
  - cbn [append scan]. unfold in_field. cbn [Ascii.eqb Bool.eqb].
    now rewrite str_app_nil_r.
  - cbn [plain_name] in Hplain.
    apply andb_true_iff in Hplain as [Hc Hplain].
    apply andb_true_iff in Hc as [Hc Hbeyond].
    apply andb_true_iff in Hc as [Hopen Hclose].
    apply negb_true_iff in Hopen, Hclose, Hbeyond.
    cbn [append scan]. unfold in_field. rewrite Hopen, Hclose, Hbeyond.
    rewrite IH by assumption. now rewrite str_app_assoc.
Qed.

Lemma scan_field (name rest : string) :
  plain_name name = true ->
  name <> EmptyString ->
  scan kwargs Text ("{" ++ name ++ "}" ++ rest)
  = finish kwargs name (scan kwargs Text rest).
Proof.
  intros Hplain Hsome. destruct name as [|c name]; [contradiction|].
  assert (Hrest := Hplain). cbn [plain_name] in Hrest.
  apply andb_true_iff in Hrest as [Hc Hrest].
  apply andb_true_iff in Hc as [Hc Hbeyond].
  apply andb_true_iff in Hc as [Hopen Hclose].
  apply negb_true_iff in Hopen, Hclose, Hbeyond.
  change ("{" ++ String c name ++ "}" ++ rest)%string
    with (String "{" (String c (name ++ "}" ++ rest))).
  cbn [scan]. cbn [Ascii.eqb Bool.eqb]. rewrite Hopen.
  unfold in_field. rewrite Hclose, Hopen, Hbeyond.
  now rewrite scan_in_field.
Qed.

Lemma scan_segments (segs : list segment) (rest : string) :
  Forall (well_formed kwargs) segs ->
  scan kwargs Text (render_all segs ++ rest)
  = prepend (fill_all kwargs segs) (scan kwargs Text rest).
Proof.
  induction 1 as [|seg segs Hseg _ IH]; cbn [render_all fill_all].
  - cbn [append]. now rewrite prepend_nil.
  - rewrite str_app_assoc, <- prepend_prepend, <- IH.
    destruct seg as [text|name]; cbn [render fill well_formed] in *.
    + now apply scan_literal.
    + destruct Hseg as (Hplain & Hsome & Hnumber & Hgiven).
      rewrite !str_app_assoc. rewrite scan_field by assumption.
      unfold finish. destruct name as [|c name]; [contradiction|].
      rewrite Hnumber. now destruct (keyword (String c name) kwargs).
Qed.

End FormatFacts.

Lemma template_is_its_segments (guidelines : string) :
  PyStr.replace "{repo_specific_guidelines}" guidelines BASE_PROMPT_TEMPLATE
  = (render_all TEMPLATE_BEFORE_GUIDELINES
     ++ guidelines ++ render_all TEMPLATE_AFTER_GUIDELINES)%string.
Proof. vm_compute. reflexivity. Qed.

Section InstructionFacts.
Context `{Settings} `{Runtime} `{Globals}.
Variables contributing_md pull_request_template_md : string.

Let kwargs : list (string * string) :=
  [("REPO", REPO);
   ("OWNER", OWNER);
   ("APPROVAL_INSTRUCTION", approval_instruction);
   ("CONTRIBUTING_MD", contributing_md);
   ("PULL_REQUEST_TEMPLATE_MD", pull_request_template_md);
   ("ALLOWED_LABELS", str_value ALLOWED_LABELS)].

Lemma head_segments_well_formed :
  Forall (PyFormat.well_formed kwargs) TEMPLATE_BEFORE_GUIDELINES.
Proof.
  repeat constructor; try (vm_compute; reflexivity); discriminate.
Qed.

Lemma tail_segments_well_formed :
  Forall (PyFormat.well_formed kwargs) TEMPLATE_AFTER_GUIDELINES.
Proof.
  repeat constructor; try (vm_compute; reflexivity); discriminate.
Qed.

End InstructionFacts.

Lemma format_around (kwargs : list (string * string))
    (before after : list PyFormat.segment) (middle : string) :
  Forall (PyFormat.well_formed kwargs) before ->
  Forall (PyFormat.well_formed kwargs) after ->
  no_braces middle ->
  PyFormat.format (render_all before ++ middle ++ render_all after) kwargs
  = PyFormat.Formatted (fill_all kwargs before ++ middle ++ fill_all kwargs after).
Proof.
  intros Hbefore Hafter Hmiddle. unfold PyFormat.format.
  rewrite (scan_segments kwargs before _ Hbefore).
  rewrite (scan_literal kwargs middle _ Hmiddle).
  rewrite <- (str_app_nil_r (render_all after)).
  rewrite (scan_segments kwargs after EmptyString Hafter).
  cbn [PyFormat.scan PyFormat.prepend]. now rewrite str_app_nil_r.
Qed.

Lemma format_unknown_field (kwargs : list (string * string))
    (segs : list PyFormat.segment) (before name rest : string) :
  Forall (PyFormat.well_formed kwargs) segs ->
  no_braces before ->
  PyFormat.plain_name name = true ->
  name <> EmptyString ->
  PyFormat.all_digits name = false ->
  PyFormat.keyword name kwargs = None ->
  PyFormat.format (render_all segs ++ before ++ "{" ++ name ++ "}" ++ rest) kwargs
  = PyFormat.FormatRaise (Py.key_error name).
Proof.
  intros Hsegs Hbefore Hplain Hsome Hnumber Hmissing. unfold PyFormat.format.
  rewrite (scan_segments kwargs segs _ Hsegs).
  rewrite (scan_literal kwargs before _ Hbefore).
  rewrite (scan_field kwargs name rest Hplain Hsome).
  unfold PyFormat.finish. destruct name as [|c name]; [contradiction|].
  now rewrite Hnumber, Hmissing.
Qed.

Lemma keyword_unknown (name v1 v2 v3 v4 v5 v6 : string) :
  ~ In name INSTRUCTION_KEYWORDS ->
  PyFormat.keyword name
    [("REPO", v1); ("OWNER", v2); ("APPROVAL_INSTRUCTION", v3);
     ("CONTRIBUTING_MD", v4); ("PULL_REQUEST_TEMPLATE_MD", v5);
     ("ALLOWED_LABELS", v6)] = None.
Proof.
  intros Hunknown. cbn [PyFormat.keyword].
  repeat match goal with
         | |- context [String.eqb ?k name] =>
             destruct (String.eqb_spec k name) as [Hsame|_];
             [exfalso; apply Hunknown; rewrite <- Hsame;
              cbn [INSTRUCTION_KEYWORDS In]; tauto|]
         end.
  reflexivity.
Qed.

Opaque template_text.

(** X20. With guidelines that hold no brace, building the instruction of
    [root_agent] does not fail, and the instruction is the literal texts of
    [BASE_PROMPT_TEMPLATE] with the arguments between them as they are:
    REPO, OWNER, the approval instruction, the guidelines, the two start-up
    texts and, twice, the allowed labels.  Braces inside the arguments are
    put out unchanged and are not read as fields. *)
Theorem root_agent_instruction_fills_template `{Settings} `{Runtime} `{Globals}
    (guidelines contributing_md pull_request_template_md : string) :
  PROMPT_TEMPLATE
  = PyStr.replace "{repo_specific_guidelines}" guidelines BASE_PROMPT_TEMPLATE ->
  no_braces guidelines ->
  BASE_PROMPT_TEMPLATE
  = (template_text 0 ++ "{REPO}" ++ template_text 1 ++ "{OWNER}"
     ++ template_text 2 ++ "{APPROVAL_INSTRUCTION}"
     ++ template_text 3 ++ "{repo_specific_guidelines}"
     ++ template_text 4 ++ "{CONTRIBUTING_MD}"
     ++ template_text 5 ++ "{PULL_REQUEST_TEMPLATE_MD}"
     ++ template_text 6 ++ "{ALLOWED_LABELS}"
     ++ template_text 7 ++ "{ALLOWED_LABELS}"
     ++ template_text 8)%string
  /\ root_agent_instruction contributing_md pull_request_template_md
     = PyFormat.Formatted
         (template_text 0 ++ REPO ++ template_text 1 ++ OWNER
          ++ template_text 2 ++ approval_instruction
          ++ template_text 3 ++ guidelines
          ++ template_text 4 ++ contributing_md
          ++ template_text 5 ++ pull_request_template_md
          ++ template_text 6 ++ str_value ALLOWED_LABELS
          ++ template_text 7 ++ str_value ALLOWED_LABELS
          ++ template_text 8)%string.
Proof.
  intros Htemplate Hplain. split; [vm_compute; reflexivity|].
  unfold root_agent_instruction.
  rewrite Htemplate, template_is_its_segments.
  rewrite (format_around _ TEMPLATE_BEFORE_GUIDELINES TEMPLATE_AFTER_GUIDELINES
             guidelines
             (head_segments_well_formed contributing_md pull_request_template_md)
             (tail_segments_well_formed contributing_md pull_request_template_md)
             Hplain).
  cbn [fill_all PyFormat.fill PyFormat.keyword TEMPLATE_BEFORE_GUIDELINES
       TEMPLATE_AFTER_GUIDELINES String.eqb Ascii.eqb Bool.eqb].
  rewrite !str_app_assoc, !str_app_nil_r. reflexivity.
Qed.

Lemma root_agent_instruction_fills_template_witness :
  exists instruction,
    @root_agent_instruction Example.settings Example.runtime
      (Scenario.loaded "- ucp labelling rules")
      "Fill {name} in." "pull_request_template.md not found."
    = PyFormat.Formatted instruction
    /\ PyStr.contains "Fill {name} in." instruction = true.
Proof.
  assert (Htemplate :
            @PROMPT_TEMPLATE (Scenario.loaded "- ucp labelling rules")
            = PyStr.replace "{repo_specific_guidelines}" "- ucp labelling rules"
                BASE_PROMPT_TEMPLATE) by reflexivity.
  assert (Hplain : no_braces "- ucp labelling rules") by (split; reflexivity).
  destruct (@root_agent_instruction_fills_template
              Example.settings Example.runtime
              (Scenario.loaded "- ucp labelling rules")
              "- ucp labelling rules" "Fill {name} in."
              "pull_request_template.md not found." Htemplate Hplain)
    as [_ Hbuilt].
  eexists. split; [exact Hbuilt|]. vm_compute. reflexivity.
Defined.

(** X21. Braces in the repository's guidelines are read by [format]: a
    field in them whose name is none of the six arguments makes building
    the instruction raise a [KeyError], so the module cannot be loaded. *)
Theorem guidelines_with_unknown_field_fail `{Settings} `{Runtime} `{Globals}
    (before name after contributing_md pull_request_template_md : string) :
  PROMPT_TEMPLATE
  = PyStr.replace "{repo_specific_guidelines}"
      (before ++ "{" ++ name ++ "}" ++ after) BASE_PROMPT_TEMPLATE ->
  no_braces before ->
  PyFormat.plain_name name = true ->
  name <> EmptyString ->
  PyFormat.all_digits name = false ->
  ~ In name INSTRUCTION_KEYWORDS ->
  exists e,
    root_agent_instruction contributing_md pull_request_template_md
    = PyFormat.FormatRaise e
    /\ exn_class_of e = KeyError.
Proof.
  intros Htemplate Hplain Hname Hsome Hnumber Hunknown.
  exists (Py.key_error name). split; [|reflexivity].
  unfold root_agent_instruction.
  rewrite Htemplate, template_is_its_segments.
  replace ((before ++ "{" ++ name ++ "}" ++ after)
           ++ render_all TEMPLATE_AFTER_GUIDELINES)%string
    with (before ++ "{" ++ name ++ "}" ++ after
          ++ render_all TEMPLATE_AFTER_GUIDELINES)%string.
  - apply format_unknown_field; try assumption.
    + apply head_segments_well_formed.
    + now apply keyword_unknown.
  - rewrite (str_app_assoc before). f_equal. cbn [append]. f_equal.
    rewrite (str_app_assoc name). f_equal.
Qed.


Lemma guidelines_with_unknown_field_fail_witness :
  exists e,
    @root_agent_instruction Example.settings Example.runtime
      (Scenario.loaded "- label {area} changes")
      "Fill {name} in." "pull_request_template.md not found."
    = PyFormat.FormatRaise e
    /\ exn_class_of e = KeyError.
Proof.
  assert (Htemplate :
            @PROMPT_TEMPLATE (Scenario.loaded "- label {area} changes")
            = PyStr.replace "{repo_specific_guidelines}"
                ("- label " ++ "{" ++ "area" ++ "}" ++ " changes")
                BASE_PROMPT_TEMPLATE) by reflexivity.
  assert (Hplain : no_braces "- label ") by (split; reflexivity).
  assert (Hname : PyFormat.plain_name "area" = true) by reflexivity.
  assert (Hsome : "area" <> EmptyString) by discriminate.
  assert (Hnumber : PyFormat.all_digits "area" = false) by reflexivity.
  assert (Hunknown : ~ In "area" INSTRUCTION_KEYWORDS).
  { cbn [INSTRUCTION_KEYWORDS In].
    intros [Hk|[Hk|[Hk|[Hk|[Hk|[Hk|[]]]]]]]; discriminate Hk. }
  exact (@guidelines_with_unknown_field_fail
           Example.settings Example.runtime
           (Scenario.loaded "- label {area} changes")
           "- label " "area" " changes" "Fill {name} in."
           "pull_request_template.md not found."
           Htemplate Hplain Hname Hsome Hnumber Hunknown).
Defined.

Transparent template_text.
